(** * The code sandbox service: HTTP layer over the Executor Manager

    A shallow embedding of [service.py], the FastAPI application that
    exposes submit / status / result / cancel / monitoring operations, and
    of the Executor Manager it drives.

    - Part 1 embeds the entities the service manipulates.
    - Part 2 embeds Python's [str.strip] on code points.
    - Part 3 gives the interface the service expects from
      [executor_manager.ExecutorManager] (a type class: the service only
      calls methods on the object).
    - Part 4 embeds every endpoint handler of [service.py], then the way
      the application turns a handler's outcome into an HTTP response.
    - Part 5 is a model of the Executor Manager written from the
      specification (that module lies outside [service.py]); part 5b
      embeds the logging set-up of [start_service.py] and [service.py].
    - Part 6 names what the statements talk about.
    - Part 7 is the theory.

    Logging calls have no influence on any response and are left out. *)

From stdpp Require Import base option list strings gmap pretty.
From Stdlib Require Import ZArith NArith Ascii Lia.

Set Default Proof Using "Type".

(* ================================================================== *)
(** * 1. Entities *)
(* ================================================================== *)

(** Modelled from the spec: [entities.SecurityLevel] is imported by the
    service but declared elsewhere; the members are the tiers of the
    data model (LOW / MEDIUM / HIGH).  [service.py] only reads [.value]
    (a string used as a dictionary key) and the member [LOW]. *)
Inductive SecurityLevel := LOW | MEDIUM | HIGH.

Definition SecurityLevel_value (l : SecurityLevel) : string :=
  match l with LOW => "low" | MEDIUM => "medium" | HIGH => "high" end.

(** Modelled from the spec: [entities.TaskStatus] is declared elsewhere;
    the members are the states of the task life cycle.  The one value that
    is visible in [service.py] is ["cancelled"] (payload of [cancel_task]);
    the other values follow the same lower-case convention. *)
Inductive TaskStatus :=
  PENDING | RUNNING | SUCCEEDED | FAILED | TIMED_OUT | CANCELLED.

Definition TaskStatus_value (s : TaskStatus) : string :=
  match s with
  | PENDING => "pending"
  | RUNNING => "running"
  | SUCCEEDED => "succeeded"
  | FAILED => "failed"
  | TIMED_OUT => "timed_out"
  | CANCELLED => "cancelled"
  end.

Definition TaskStatus_members : list TaskStatus :=
  [PENDING; RUNNING; SUCCEEDED; FAILED; TIMED_OUT; CANCELLED].

(** [TaskStatus(v)]: enum lookup by value; [None] stands for the
    [ValueError] Python raises when no member has that value. *)
Definition TaskStatus_of_value (v : string) : option TaskStatus :=
  List.find (fun s => bool_decide (TaskStatus_value s = v)) TaskStatus_members.

Global Instance SecurityLevel_eq_dec : EqDecision SecurityLevel.
Proof. solve_decision. Defined.

Global Instance TaskStatus_eq_dec : EqDecision TaskStatus.
Proof. solve_decision. Defined.

Definition SecurityLevel_code (l : SecurityLevel) : nat :=
  match l with LOW => 0 | MEDIUM => 1 | HIGH => 2 end.

Definition SecurityLevel_decode (n : nat) : option SecurityLevel :=
  match n with
  | 0 => Some LOW
  | 1 => Some MEDIUM
  | 2 => Some HIGH
  | _ => None
  end.

Global Program Instance SecurityLevel_countable : Countable SecurityLevel :=
  inj_countable SecurityLevel_code SecurityLevel_decode _.
Next Obligation. by intros []. Qed.


(** [entities.CodeType]: only [PYTHON] is named by the service. *)
Inductive CodeType := PYTHON | OtherCodeType (name : string).

Record UserInfo := {
  user_id : string;
  username : string;
  permissions : list string;
}.

(** A Python [str] that the service inspects character by character is a
    list of Unicode code points. *)
Definition pystr := list N.

Record CodeExecutionRequest := {
  code : pystr;
  code_type : CodeType;
  user_info : UserInfo;
  security_level : SecurityLevel;
  timeout_seconds : Z;
  input_data : option string;
}.

(** The ten fields of [ExecutionResult], as the legacy endpoint builds
    it.  Durations, usages and timestamps are carried as exact numbers:
    the service never computes with them, it only passes them on or sets
    them to [None]. *)
Record ExecutionResult := {
  result_task_id : string;
  status : TaskStatus;
  output : option string;
  error : option string;
  return_code : option Z;
  execution_time : option Z;
  memory_usage : option Z;
  cpu_usage : option Z;
  start_time : option Z;
  end_time : option Z;
}.

Record TaskSubmissionResponse := {
  task_id : string;
  estimated_wait_time : Z;
  queue_position : Z;
}.

(** [Dict[str, Any]] reports of the manager, passed through untouched. *)
#[local] Set Warnings "-register-all".
Inductive pyval :=
  | PyNone
  | PyBool (b : bool)
  | PyInt (z : Z)
  | PyStr (s : string)
  | PyDict (items : list (string * pyval)).

(** The dictionary [get_queue_info()] returns: the service indexes it
    with ["queues"], then by tier value, then by ["queue_size"]. *)
Abbreviation tier_info := (gmap string Z).
Abbreviation queue_info := (gmap string (gmap string tier_info)).

(** What the [data] field of an [ApiResponse] can hold, per endpoint. *)
Inductive payload :=
  | RootData (service status_text : string)
  | SubmissionData (r : TaskSubmissionResponse)
  | TaskStatusData (tid : string) (status_value : string)
  | ResultData (r : ExecutionResult)
  | QueueInfoData (q : queue_info)
  | ReportData (r : pyval).

Record ApiResponse := {
  success : bool;
  message : string;
  data : option payload;
}.

(* ================================================================== *)
(** * 2. [str.strip] *)
(* ================================================================== *)

(** Python's [str.isspace] for one code point (CPython's
    [_PyUnicode_IsWhitespace]). *)
Definition py_isspace (c : N) : bool :=
  ((9 <=? c) && (c <=? 13) || (28 <=? c) && (c <=? 32)
   || (c =? 133) || (c =? 160) || (c =? 5760)
   || (8192 <=? c) && (c <=? 8202)
   || (c =? 8232) || (c =? 8233) || (c =? 8239) || (c =? 8287)
   || (c =? 12288))%N.

Fixpoint lstrip (s : pystr) : pystr :=
  match s with
  | c :: s' => if py_isspace c then lstrip s' else s
  | [] => []
  end.

Definition rstrip (s : pystr) : pystr := rev (lstrip (rev s)).

(** [s.strip()]: whitespace removed at both ends. *)
Definition strip (s : pystr) : pystr := rstrip (lstrip s).

(** [not s] for a string. *)
Definition py_not_str (s : pystr) : bool :=
  match s with [] => true | _ => false end.

(** Code points of an ASCII literal. *)
Fixpoint pystr_of_string (s : string) : pystr :=
  match s with
  | EmptyString => []
  | String a s' => Ascii.N_of_ascii a :: pystr_of_string s'
  end.

(* ================================================================== *)
(** * 3. Exceptions and the manager interface *)
(* ================================================================== *)

(** Classes of the exceptions that can reach a handler: the two Python
    raises itself in the handlers' own code, the failure taxonomy of the
    manager, and anything else. *)
Inductive error_class :=
  | KeyError
  | ValueError
  | ValidationError
  | LifecycleError
  | NotFoundError
  | OtherError (name : string).

(** [fastapi.HTTPException] is a subclass of [Exception]; [PyError] is
    any other exception, carrying the text [str(e)] gives. *)
Inductive exn :=
  | HTTPException (status_code : Z) (detail : string)
  | PyError (cls : error_class) (text : string).

(** [str(e)]: Starlette prints an [HTTPException] as
    ["<status_code>: <detail>"]. *)
Definition py_str (e : exn) : string :=
  match e with
  | HTTPException c d => pretty c +:+ ": " +:+ d
  | PyError _ t => t
  end.

(** A call either returns or raises. *)
Inductive outcome (A : Type) :=
  | Return (a : A)
  | Raise (e : exn).
Arguments Return {A} a.
Arguments Raise {A} e.

Global Instance outcome_ret : MRet outcome := fun A a => Return a.

Global Instance outcome_bind : MBind outcome := fun A B k o =>
  match o with
  | Return a => k a
  | Raise e => Raise e
  end.

(** What [service.py] uses of [ExecutorManager].  Every method may raise.
    [submit_task] and [cancel_task] change the manager, so they also
    return its next state; the getters only read it. *)
Class ExecutorManager (M : Type) := {
  mgr_new : M;
  mgr_start : M -> M;
  mgr_stop : M -> M;
  mgr_is_running : M -> bool;
  mgr_submit_task : M -> CodeExecutionRequest -> Z -> M * outcome string;
  mgr_cancel_task : M -> string -> M * outcome bool;
  mgr_get_task_status : M -> string -> outcome (option string);
  mgr_get_task_result : M -> string -> outcome (option ExecutionResult);
  mgr_get_queue_info : M -> outcome queue_info;
  mgr_get_executor_status : M -> outcome pyval;
  mgr_get_system_status : M -> outcome pyval;
}.

(* ================================================================== *)
(** * 4. The endpoint handlers of [service.py] *)
(* ================================================================== *)

Section service.
Context {M : Type} `{!ExecutorManager M}.

(** The exception clauses
    [except HTTPException: raise] followed by
    [except Exception as e: raise HTTPException(500, prefix + str(e))]. *)
Definition except_reraise_http {A} (prefix : string) (o : outcome A)
  : outcome A :=
  match o with
  | Return a => Return a
  | Raise (HTTPException c d) => Raise (HTTPException c d)
  | Raise e => Raise (HTTPException 500 (prefix +:+ py_str e))
  end.

(** The single clause
    [except Exception as e: raise HTTPException(500, prefix + str(e))]:
    an [HTTPException] raised in the [try] block is an [Exception] and
    is caught as well. *)
Definition except_exception {A} (prefix : string) (o : outcome A)
  : outcome A :=
  match o with
  | Return a => Return a
  | Raise e => Raise (HTTPException 500 (prefix +:+ py_str e))
  end.

(** [d[k]] on a dictionary. *)
Definition py_getitem {V} (d : gmap string V) (k : string) : outcome V :=
  match d !! k with
  | Some v => Return v
  | None => Raise (PyError KeyError ("'" +:+ k +:+ "'"))
  end.

(** [repr(s)] for a string, as [ValueError] messages quote it: double
    quotes when [s] holds a single quote and no double quote, single quotes
    otherwise; the quote and the backslash escaped, tab, line feed and
    carriage return written as escapes, other control characters as
    two-digit hexadecimal escapes.  Characters outside ASCII are kept as
    they are, as for printable text. *)
Definition hex_digit (n : nat) : ascii :=
  default "0"%char (String.get n "0123456789abcdef").

Fixpoint has_char (c : ascii) (s : string) : bool :=
  match s with
  | EmptyString => false
  | String a s' => Ascii.eqb a c || has_char c s'
  end.

Definition py_repr_char (quote c : ascii) : string :=
  let n := nat_of_ascii c in
  if Ascii.eqb c quote || (n =? 92)%nat then String "\" (String c "")
  else if (n =? 9)%nat then "\t"
  else if (n =? 10)%nat then "\n"
  else if (n =? 13)%nat then "\r"
  else if (n <? 32)%nat || (n =? 127)%nat then
    String "\" (String "x" (String (hex_digit (n / 16))
                              (String (hex_digit (n mod 16)) "")))
  else String c "".

Fixpoint py_repr_body (quote : ascii) (s : string) : string :=
  match s with
  | EmptyString => ""
  | String c s' => py_repr_char quote c +:+ py_repr_body quote s'
  end.

Definition py_repr (s : string) : string :=
  let single := ascii_of_nat 39 in
  let double := ascii_of_nat 34 in
  let quote :=
    if has_char single s && negb (has_char double s) then double else single in
  String quote (py_repr_body quote s +:+ String quote "").

(** [TaskStatus(v)] with its [ValueError]. *)
Definition TaskStatus_call (v : string) : outcome TaskStatus :=
  match TaskStatus_of_value v with
  | Some s => Return s
  | None => Raise (PyError ValueError (py_repr v +:+ " is not a valid TaskStatus"))
  end.

Definition not_initialized {A} : outcome A :=
  Raise (HTTPException 503 "执行器管理器未初始化").

(** [GET /] *)
Definition root : outcome ApiResponse :=
  Return {| success := true;
            message := "代码沙箱服务运行正常";
            data := Some (RootData "euler-copilot-sandbox" "running") |}.

(** [GET /health]; no [try] block here. *)
Definition health_check (executor_manager : option M) : outcome ApiResponse :=
  match executor_manager with
  | None => Raise (HTTPException 503 "服务不可用")
  | Some m =>
      if negb (mgr_is_running m) then Raise (HTTPException 503 "服务不可用")
      else
        report ← mgr_get_system_status m;
        Return {| success := true;
                  message := "服务健康";
                  data := Some (ReportData report) |}
  end.

(** [POST /execute] *)
Definition submit_code_execution (executor_manager : option M)
    (request : CodeExecutionRequest) (priority : Z)
  : option M * outcome ApiResponse :=
  let '(manager', tried) :=
    match executor_manager with
    | None => (None, not_initialized)
    | Some m =>
        if py_not_str (strip (code request)) then
          (Some m, Raise (HTTPException 400 "代码内容不能为空"))
        else
          let '(m', submitted) := mgr_submit_task m request priority in
          (Some m',
           tid ← submitted;
           info ← mgr_get_queue_info m';
           queues ← py_getitem info "queues";
           let security_level_queue :=
             default ∅ (queues !! SecurityLevel_value (security_level request)) in
           let queue_size := default 0%Z (security_level_queue !! "queue_size") in
           let wait := (queue_size * 10)%Z in
           Return {| success := true;
                     message := "任务提交成功";
                     data := Some (SubmissionData
                       {| task_id := tid;
                          estimated_wait_time := wait;
                          queue_position := (queue_size + 1)%Z |}) |})
    end in
  (manager', except_reraise_http "提交任务失败: " tried).

(** [GET /task/{task_id}/status] *)
Definition get_task_status (executor_manager : option M) (tid : string)
  : outcome ApiResponse :=
  except_reraise_http "获取任务状态失败: "
    match executor_manager with
    | None => not_initialized
    | Some m =>
        st ← mgr_get_task_status m tid;
        match st with
        | None => Raise (HTTPException 404 "任务不存在")
        | Some st =>
            Return {| success := true;
                      message := "获取任务状态成功";
                      data := Some (TaskStatusData tid st) |}
        end
    end.

(** [GET /task/{task_id}/result] *)
Definition get_task_result (executor_manager : option M) (tid : string)
  : outcome ApiResponse :=
  except_reraise_http "获取任务结果失败: "
    match executor_manager with
    | None => not_initialized
    | Some m =>
        result ← mgr_get_task_result m tid;
        match result with
        | None => Raise (HTTPException 404 "任务结果不存在")
        | Some result =>
            Return {| success := true;
                      message := "获取任务结果成功";
                      data := Some (ResultData result) |}
        end
    end.

(** The placeholder the legacy endpoint builds when there is no result. *)
Definition placeholder_result (tid : string) (st : TaskStatus)
  : ExecutionResult :=
  {| result_task_id := tid; status := st;
     output := None; error := None; return_code := None;
     execution_time := None; memory_usage := None; cpu_usage := None;
     start_time := None; end_time := None |}.

(** [GET /status/{task_id}] (backward compatible endpoint) *)
Definition get_task_status_legacy (executor_manager : option M)
    (tid : string) : outcome ApiResponse :=
  except_reraise_http "获取任务状态失败: "
    match executor_manager with
    | None => not_initialized
    | Some m =>
        st ← mgr_get_task_status m tid;
        match st with
        | None => Raise (HTTPException 404 "任务不存在")
        | Some st =>
            result ← mgr_get_task_result m tid;
            result ← match result with
                     | None =>
                         s ← TaskStatus_call st;
                         Return (placeholder_result tid s)
                     | Some result => Return result
                     end;
            Return {| success := true;
                      message := "获取任务状态成功";
                      data := Some (ResultData result) |}
        end
    end.

(** [DELETE /task/{task_id}] *)
Definition cancel_task (executor_manager : option M) (tid : string)
  : option M * outcome ApiResponse :=
  let '(manager', tried) :=
    match executor_manager with
    | None => (None, not_initialized)
    | Some m =>
        let '(m', cancelled) := mgr_cancel_task m tid in
        (Some m',
         ok ← cancelled;
         if negb ok then
           Raise (HTTPException 400 "任务无法取消（可能已在执行中或不存在）")
         else
           Return {| success := true;
                     message := "任务取消成功";
                     data := Some (TaskStatusData tid "cancelled") |})
    end in
  (manager', except_reraise_http "取消任务失败: " tried).

(** [GET /queues/info] *)
Definition get_queue_info (executor_manager : option M)
  : outcome ApiResponse :=
  except_exception "获取队列信息失败: "
    match executor_manager with
    | None => not_initialized
    | Some m =>
        info ← mgr_get_queue_info m;
        Return {| success := true;
                  message := "获取队列信息成功";
                  data := Some (QueueInfoData info) |}
    end.

(** [GET /executors/status] *)
Definition get_executor_status (executor_manager : option M)
  : outcome ApiResponse :=
  except_exception "获取执行器状态失败: "
    match executor_manager with
    | None => not_initialized
    | Some m =>
        report ← mgr_get_executor_status m;
        Return {| success := true;
                  message := "获取执行器状态成功";
                  data := Some (ReportData report) |}
    end.

(** [GET /system/status] *)
Definition get_system_status (executor_manager : option M)
  : outcome ApiResponse :=
  except_exception "获取系统状态失败: "
    match executor_manager with
    | None => not_initialized
    | Some m =>
        report ← mgr_get_system_status m;
        Return {| success := true;
                  message := "获取系统状态成功";
                  data := Some (ReportData report) |}
    end.

(** The request [POST /debug/submit-test-task] submits. *)
Definition test_request (level : SecurityLevel) : CodeExecutionRequest :=
  {| code := pystr_of_string "print('Hello, World!')" ++ [10%N]
             ++ pystr_of_string "print('"
             ++ [20195; 30721; 27801; 31665; 27979; 35797]%N
             ++ pystr_of_string "')";
     code_type := PYTHON;
     user_info := {| user_id := "test_user";
                     username := "测试用户";
                     permissions := ["execute"] |};
     security_level := level;
     timeout_seconds := 10;
     input_data := None |}.

(** [POST /debug/submit-test-task] *)
Definition submit_test_task (executor_manager : option M)
    (level : SecurityLevel) : option M * outcome ApiResponse :=
  submit_code_execution executor_manager (test_request level) 1.

(** ** The application around the handlers *)

(** [lifespan]: what runs before the first request and after the last. *)
Definition lifespan_startup : option M := Some (mgr_start mgr_new).

Definition lifespan_shutdown (executor_manager : option M) : option M :=
  mgr_stop <$> executor_manager.

Inductive request :=
  | GET_root
  | GET_health
  | POST_execute (body : CodeExecutionRequest) (priority : option Z)
  | GET_task_status (tid : string)
  | GET_task_result (tid : string)
  | GET_status_legacy (tid : string)
  | DELETE_task (tid : string)
  | GET_queues_info
  | GET_executors_status
  | GET_system_status
  | POST_debug_submit_test_task (level : option SecurityLevel).

(** A JSON body is either an [ApiResponse]-shaped object or FastAPI's
    [{"detail": ...}] for an [HTTPException]. *)
Inductive response_body :=
  | JsonApiResponse (r : ApiResponse)
  | JsonDetail (detail : string).

Record http_response := {
  http_status : Z;
  http_body : response_body;
}.

(** [global_exception_handler]: registered for [Exception]. *)
Definition global_exception_handler (exc : exn) : http_response :=
  {| http_status := 500;
     http_body := JsonApiResponse {| success := false;
                                     message := "服务器内部错误";
                                     data := None |} |}.

(** The response the application sends for a handler's outcome. *)
Definition respond (o : outcome ApiResponse) : http_response :=
  match o with
  | Return r => {| http_status := 200; http_body := JsonApiResponse r |}
  | Raise (HTTPException c d) => {| http_status := c; http_body := JsonDetail d |}
  | Raise e => global_exception_handler e
  end.

(** The handler's outcome for a request (routing table of [app]);
    [priority] defaults to 0 and [security_level] to [LOW]. *)
Definition handle (executor_manager : option M) (rq : request)
  : option M * outcome ApiResponse :=
  match rq with
  | GET_root => (executor_manager, root)
  | GET_health => (executor_manager, health_check executor_manager)
  | POST_execute body priority =>
      submit_code_execution executor_manager body (default 0%Z priority)
  | GET_task_status tid =>
      (executor_manager, get_task_status executor_manager tid)
  | GET_task_result tid =>
      (executor_manager, get_task_result executor_manager tid)
  | GET_status_legacy tid =>
      (executor_manager, get_task_status_legacy executor_manager tid)
  | DELETE_task tid => cancel_task executor_manager tid
  | GET_queues_info => (executor_manager, get_queue_info executor_manager)
  | GET_executors_status =>
      (executor_manager, get_executor_status executor_manager)
  | GET_system_status =>
      (executor_manager, get_system_status executor_manager)
  | POST_debug_submit_test_task level =>
      submit_test_task executor_manager (default LOW level)
  end.

Definition serve (executor_manager : option M) (rq : request)
  : option M * http_response :=
  let '(manager', o) := handle executor_manager rq in
  (manager', respond o).

End service.

(* ================================================================== *)
(** * 5. The Executor Manager *)
(* ================================================================== *)

(** Modelled from the spec: the whole of [executor_manager.py] (task
    registry, tier queues, executor pools, scheduler and the
    [ExecutorManager] facade) is imported by [service.py] but is not part
    of it.  The model follows the component design of the specification,
    one atomic step per operation.  There is no clock: timestamps are
    left out. *)
Module SpecManager.

(** ** Task registry *)

(** Modelled from the spec: the task record of the registry (data model,
    "Task"), without its timestamps. *)
Record Task := {
  task_ident : string;
  task_request : CodeExecutionRequest;
  task_priority : Z;
  task_state : TaskStatus;
  task_result : option ExecutionResult;
}.

Definition task_tier (t : Task) : SecurityLevel :=
  security_level (task_request t).

Definition set_state (t : Task) (s : TaskStatus)
    (r : option ExecutionResult) : Task :=
  {| task_ident := task_ident t;
     task_request := task_request t;
     task_priority := task_priority t;
     task_state := s;
     task_result := r |}.

(** The three answers of [get_result]. *)
Inductive result_query :=
  | Ready (r : ExecutionResult)
  | NotReady
  | NotFound.

Module Registry.

(** Modelled from the spec: identifier generation of [create]; the
    identifiers are drawn from a counter, so none is reused. *)
Definition make_id (n : N) : string := "task-" +:+ pretty n.

(** Modelled from the spec: [create(submission)] stores the task in state
    PENDING under a new identifier. *)
Definition create (reg : gmap string Task) (next : N)
    (req : CodeExecutionRequest) (prio : Z)
  : gmap string Task * N * string :=
  let tid := make_id next in
  (<[tid := {| task_ident := tid; task_request := req;
               task_priority := prio; task_state := PENDING;
               task_result := None |}]> reg,
   (next + 1)%N, tid).

(** Modelled from the spec: [get_state(task_id)], [None] for not-found. *)
Definition get_state (reg : gmap string Task) (tid : string)
  : option TaskStatus :=
  task_state <$> reg !! tid.

(** Modelled from the spec: [get_result(task_id)] with its three
    answers. *)
Definition get_result (reg : gmap string Task) (tid : string)
  : result_query :=
  match reg !! tid with
  | None => NotFound
  | Some t =>
      match task_result t with
      | Some r => Ready r
      | None => NotReady
      end
  end.

(** Modelled from the spec: [mark_running], a guarded transition; [None]
    reports an invalid edge. *)
Definition mark_running (reg : gmap string Task) (tid : string)
  : option (gmap string Task) :=
  match reg !! tid with
  | Some t =>
      if decide (task_state t = PENDING)
      then Some (<[tid := set_state t RUNNING None]> reg)
      else None
  | None => None
  end.

(** Modelled from the spec: [mark_terminal(task_id, state, result)], state
    and result written together. *)
Definition mark_terminal (reg : gmap string Task) (tid : string)
    (s : TaskStatus) (r : ExecutionResult) : option (gmap string Task) :=
  match reg !! tid with
  | Some t =>
      if decide (task_state t = RUNNING)
      then Some (<[tid := set_state t s (Some r)]> reg)
      else None
  | None => None
  end.

(** Modelled from the spec: [mark_cancelled(task_id)] succeeds only from
    PENDING. *)
Definition mark_cancelled (reg : gmap string Task) (tid : string)
  : gmap string Task * bool :=
  match reg !! tid with
  | Some t =>
      if decide (task_state t = PENDING)
      then (<[tid := set_state t CANCELLED None]> reg, true)
      else (reg, false)
  | None => (reg, false)
  end.

End Registry.

(** ** Tier queue *)

(** Modelled from the spec: the queue entry (task identifier, priority,
    submission sequence number). *)
Record QueueEntry := {
  entry_task : string;
  entry_priority : Z;
  entry_seq : N;
}.

Module TierQueue.

Record t := {
  entries : list QueueEntry;
  next_seq : N;
}.

Definition empty : t := {| entries := []; next_seq := 0 |}.

(** Modelled from the spec: [enqueue(task_id, priority)] appends an entry
    with the next sequence number. *)
Definition enqueue (q : t) (tid : string) (prio : Z) : t :=
  {| entries := entries q ++
       [{| entry_task := tid; entry_priority := prio;
           entry_seq := next_seq q |}];
     next_seq := (next_seq q + 1)%N |}.

(** [a] is dequeued before [b]: higher priority first, then the
    smaller sequence number. *)
Definition before (a b : QueueEntry) : bool :=
  (entry_priority b <? entry_priority a)%Z
  || ((entry_priority a =? entry_priority b)%Z
      && (entry_seq a <? entry_seq b)%N).

Fixpoint take_best (l : list QueueEntry)
  : option (QueueEntry * list QueueEntry) :=
  match l with
  | [] => None
  | e :: l' =>
      match take_best l' with
      | None => Some (e, [])
      | Some (b, rest) =>
          if before b e then Some (b, e :: rest) else Some (e, l')
      end
  end.

(** Modelled from the spec: [dequeue_best()] removes and returns the
    highest-priority, earliest-submitted entry. *)
Definition dequeue_best (q : t) : option (QueueEntry * t) :=
  match take_best (entries q) with
  | Some (e, rest) => Some (e, {| entries := rest; next_seq := next_seq q |})
  | None => None
  end.

Definition holds (q : t) (tid : string) : bool :=
  bool_decide (tid ∈ entry_task <$> entries q).

(** Modelled from the spec: [remove(task_id)] drops the entry if present
    and tells whether it was. *)
Definition remove (q : t) (tid : string) : t * bool :=
  ({| entries := filter (fun e => entry_task e ≠ tid) (entries q);
      next_seq := next_seq q |},
   holds q tid).

Definition size (q : t) : nat := length (entries q).

End TierQueue.

(** ** Executor pool *)

Module ExecutorPool.

Record t := {
  active_count : nat;
  capacity : nat;
}.

Definition has_free_slot (p : t) : bool := active_count p <? capacity p.

(** Modelled from the spec: [acquire()]; [None] where the call would
    suspend. *)
Definition acquire (p : t) : option t :=
  if has_free_slot p
  then Some {| active_count := S (active_count p); capacity := capacity p |}
  else None.

Definition release (p : t) : t :=
  {| active_count := pred (active_count p); capacity := capacity p |}.

Definition drained (p : t) : t :=
  {| active_count := 0; capacity := capacity p |}.

End ExecutorPool.

(** ** Sandbox runner (external capability) *)

(** Modelled from the spec: what the runner's [execute] can return. *)
Inductive runner_outcome :=
  | Completed (out err : string) (exit_indicator : Z)
              (duration memory_peak cpu_time : Z)
  | TimeoutSignal
  | FaultSignal (diagnostic : string).

Definition terminal_state (o : runner_outcome) : TaskStatus :=
  match o with
  | Completed _ _ exit_indicator _ _ _ =>
      if (exit_indicator =? 0)%Z then SUCCEEDED else FAILED
  | TimeoutSignal => TIMED_OUT
  | FaultSignal _ => FAILED
  end.

Definition build_result (tid : string) (o : runner_outcome)
  : ExecutionResult :=
  match o with
  | Completed out err exit_indicator duration memory_peak cpu_time =>
      {| result_task_id := tid; status := terminal_state o;
         output := Some out; error := Some err;
         return_code := Some exit_indicator;
         execution_time := Some duration;
         memory_usage := Some memory_peak; cpu_usage := Some cpu_time;
         start_time := None; end_time := None |}
  | TimeoutSignal =>
      {| result_task_id := tid; status := TIMED_OUT;
         output := None; error := Some "execution timed out";
         return_code := None; execution_time := None;
         memory_usage := None; cpu_usage := None;
         start_time := None; end_time := None |}
  | FaultSignal diagnostic =>
      {| result_task_id := tid; status := FAILED;
         output := None; error := Some diagnostic;
         return_code := None; execution_time := None;
         memory_usage := None; cpu_usage := None;
         start_time := None; end_time := None |}
  end.

(** ** The manager *)

Record Tier := {
  tier_queue : TierQueue.t;
  tier_pool : ExecutorPool.t;
}.

(** Modelled from the spec: the state of the [ExecutorManager] object.
    [config] gives the pool capacity of every configured tier; [sandbox]
    is the runner selected per tier. *)
Record manager := {
  config : gmap SecurityLevel nat;
  sandbox : SecurityLevel -> CodeExecutionRequest -> runner_outcome;
  is_running : bool;
  tiers : gmap SecurityLevel Tier;
  registry : gmap string Task;
  next_id : N;
}.

Definition new (cfg : gmap SecurityLevel nat)
    (run : SecurityLevel -> CodeExecutionRequest -> runner_outcome)
  : manager :=
  {| config := cfg; sandbox := run; is_running := false;
     tiers := ∅; registry := ∅; next_id := 0 |}.

Definition fresh_tier (cap : nat) : Tier :=
  {| tier_queue := TierQueue.empty;
     tier_pool := {| ExecutorPool.active_count := 0;
                     ExecutorPool.capacity := cap |} |}.

(** Modelled from the spec: [start()], one queue and pool per configured
    tier; no-op when already running. *)
Definition start (m : manager) : manager :=
  if is_running m then m
  else {| config := config m; sandbox := sandbox m; is_running := true;
          tiers := fresh_tier <$> config m;
          registry := registry m; next_id := next_id m |}.

(** What a worker does with a running task: run the sandbox, build the
    result, reach the terminal state. *)
Definition finish (run : SecurityLevel -> CodeExecutionRequest -> runner_outcome)
    (t : Task) : Task :=
  let o := run (task_tier t) (task_request t) in
  set_state t (terminal_state o) (Some (build_result (task_ident t) o)).

Definition settle (run : SecurityLevel -> CodeExecutionRequest -> runner_outcome)
    (t : Task) : Task :=
  if decide (task_state t = RUNNING) then finish run t else t.

Definition drain_tier (t : Tier) : Tier :=
  {| tier_queue := tier_queue t;
     tier_pool := ExecutorPool.drained (tier_pool t) |}.

(** Modelled from the spec: [stop()], no new dequeues, every in-flight
    execution settles, then the manager is stopped. *)
Definition stop (m : manager) : manager :=
  {| config := config m; sandbox := sandbox m; is_running := false;
     tiers := drain_tier <$> tiers m;
     registry := settle (sandbox m) <$> registry m;
     next_id := next_id m |}.

(** Modelled from the spec: [submit(request, priority)], the
    [submit_task] of the service.  It fails with a [LifecycleError] when the
    manager is not running, validates the tier, creates the task and
    enqueues it. *)
Definition submit (m : manager) (req : CodeExecutionRequest) (prio : Z)
  : manager * outcome string :=
  if negb (is_running m) then
    (m, Raise (PyError LifecycleError "executor manager is not running"))
  else
    match tiers m !! security_level req with
    | None => (m, Raise (PyError ValidationError "unsupported security tier"))
    | Some tier =>
        let '(reg, next, tid) :=
          Registry.create (registry m) (next_id m) req prio in
        ({| config := config m; sandbox := sandbox m;
            is_running := is_running m;
            tiers := <[security_level req :=
                         {| tier_queue := TierQueue.enqueue (tier_queue tier) tid prio;
                            tier_pool := tier_pool tier |}]> (tiers m);
            registry := reg; next_id := next |},
         Return tid)
    end.

(** The queue side of a cancellation: [TierQueue.remove] on the tier
    of the task. *)
Definition remove_entry (ts : gmap SecurityLevel Tier)
    (level : SecurityLevel) (tid : string)
  : gmap SecurityLevel Tier * bool :=
  match ts !! level with
  | Some tier =>
      let '(q, removed) := TierQueue.remove (tier_queue tier) tid in
      (<[level := {| tier_queue := q; tier_pool := tier_pool tier |}]> ts,
       removed)
  | None => (ts, false)
  end.

(** Modelled from the spec: [cancel(task_id)], the [cancel_task] of the
    service.  The queue removal and the registry transition are both
    attempted; success needs both. *)
Definition cancel (m : manager) (tid : string) : manager * bool :=
  match registry m !! tid with
  | None => (m, false)
  | Some t =>
      let '(tiers', removed) := remove_entry (tiers m) (task_tier t) tid in
      let '(reg, marked) := Registry.mark_cancelled (registry m) tid in
      ({| config := config m; sandbox := sandbox m;
          is_running := is_running m;
          tiers := tiers'; registry := reg; next_id := next_id m |},
       removed && marked)
  end.

(** ** Scheduler *)

(** Modelled from the spec: one round of a tier's dispatch loop, steps
    (a) to (d): with a
    non-empty queue and a free slot, dequeue the best entry; skip it if
    its task is no longer pending, otherwise take a slot and mark the
    task running. *)
Definition dispatch (m : manager) (level : SecurityLevel) : manager :=
  if negb (is_running m) then m
  else
    match tiers m !! level with
    | None => m
    | Some tier =>
        match ExecutorPool.acquire (tier_pool tier),
              TierQueue.dequeue_best (tier_queue tier) with
        | Some pool, Some (e, q) =>
            match Registry.mark_running (registry m) (entry_task e) with
            | Some reg =>
                {| config := config m; sandbox := sandbox m;
                   is_running := is_running m;
                   tiers := <[level := {| tier_queue := q; tier_pool := pool |}]>
                              (tiers m);
                   registry := reg; next_id := next_id m |}
            | None =>
                {| config := config m; sandbox := sandbox m;
                   is_running := is_running m;
                   tiers := <[level := {| tier_queue := q;
                                          tier_pool := tier_pool tier |}]>
                              (tiers m);
                   registry := registry m; next_id := next_id m |}
            end
        | _, _ => m
        end
    end.

(** Modelled from the spec: steps (e) to (g) for one running task: sandbox run, terminal
    transition with the result, slot released. *)
Definition complete (m : manager) (tid : string) : manager :=
  match registry m !! tid with
  | None => m
  | Some t =>
      let o := sandbox m (task_tier t) (task_request t) in
      match Registry.mark_terminal (registry m) tid
              (terminal_state o) (build_result tid o) with
      | None => m
      | Some reg =>
          {| config := config m; sandbox := sandbox m;
             is_running := is_running m;
             tiers := alter (fun tier =>
                        {| tier_queue := tier_queue tier;
                           tier_pool := ExecutorPool.release (tier_pool tier) |})
                        (task_tier t) (tiers m);
             registry := reg; next_id := next_id m |}
      end
  end.

(** ** Status aggregation *)

Definition tier_report (t : Tier) : tier_info :=
  {[ "queue_size" := Z.of_nat (TierQueue.size (tier_queue t));
     "active" := Z.of_nat (ExecutorPool.active_count (tier_pool t));
     "capacity" := Z.of_nat (ExecutorPool.capacity (tier_pool t)) ]}.

Definition queue_report (m : manager) : gmap string tier_info :=
  list_to_map
    ((fun lt => (SecurityLevel_value lt.1, tier_report lt.2))
       <$> map_to_list (tiers m)).

Definition status_summary (m : manager) : pyval :=
  PyDict
    [("is_running", PyBool (is_running m));
     ("queues",
      PyDict ((fun lt =>
                 (SecurityLevel_value lt.1,
                  PyDict [("queue_size",
                           PyInt (Z.of_nat (TierQueue.size (tier_queue lt.2))));
                          ("active",
                           PyInt (Z.of_nat (ExecutorPool.active_count (tier_pool lt.2))));
                          ("capacity",
                           PyInt (Z.of_nat (ExecutorPool.capacity (tier_pool lt.2))))]))
                <$> map_to_list (tiers m)))].

(** ** The manager as the service sees it *)

(** Modelled from the spec: how [get_task_result] presents the not-found
    answer of the registry to its Python caller.  The specification tells
    not-found from not-ready and names a [NotFoundError], but it does not say
    whether the method returns [None] or raises for an unknown identifier;
    both presentations are covered. *)
Inductive unknown_convention := AnswersNone | RaisesNotFound.

(** Modelled from the spec: the Python value of a registry answer.  For a
    task without a result the method returns [None]: the legacy endpoint of
    [service.py] tests [result is None] for a task whose status it has just
    read. *)
Definition python_result (unknown : unknown_convention) (q : result_query)
  : outcome (option ExecutionResult) :=
  match q with
  | Ready r => Return (Some r)
  | NotReady => Return None
  | NotFound =>
      match unknown with
      | AnswersNone => Return None
      | RaisesNotFound => Raise (PyError NotFoundError "task not found")
      end
  end.

(** Modelled from the spec: the methods of [ExecutorManager] that the
    service calls, over the operations above. *)
Definition manager_ops (cfg : gmap SecurityLevel nat)
    (run : SecurityLevel -> CodeExecutionRequest -> runner_outcome)
    (unknown : unknown_convention)
  : ExecutorManager manager := {|
  mgr_new := new cfg run;
  mgr_start := start;
  mgr_stop := stop;
  mgr_is_running := is_running;
  mgr_submit_task := submit;
  mgr_cancel_task := fun m tid => let '(m', ok) := cancel m tid in (m', Return ok);
  mgr_get_task_status := fun m tid =>
    Return (TaskStatus_value <$> Registry.get_state (registry m) tid);
  mgr_get_task_result := fun m tid =>
    python_result unknown (Registry.get_result (registry m) tid);
  mgr_get_queue_info := fun m => Return {[ "queues" := queue_report m ]};
  mgr_get_executor_status := fun m => Return (status_summary m);
  mgr_get_system_status := fun m => Return (status_summary m);
|}.

(** ** Histories *)

(** What can happen to a started manager: requests of the service and
    rounds of the schedulers.  The service starts the manager once, in
    [lifespan]. *)
Inductive event :=
  | ESubmit (req : CodeExecutionRequest) (prio : Z)
  | ECancel (tid : string)
  | EDispatch (level : SecurityLevel)
  | EComplete (tid : string)
  | EStop.

Definition step (m : manager) (e : event) : manager :=
  match e with
  | ESubmit req prio => (submit m req prio).1
  | ECancel tid => (cancel m tid).1
  | EDispatch level => dispatch m level
  | EComplete tid => complete m tid
  | EStop => stop m
  end.

Definition run_events (m : manager) (es : list event) : manager :=
  foldl step m es.

(** The identifiers handed out by the submissions of a history. *)
Fixpoint issued (m : manager) (es : list event) : list string :=
  match es with
  | [] => []
  | e :: es' =>
      match e with
      | ESubmit req prio =>
          match (submit m req prio).2 with
          | Return tid => [tid]
          | Raise _ => []
          end
      | _ => []
      end ++ issued (step m e) es'
  end.

Definition initial (cfg : gmap SecurityLevel nat)
    (run : SecurityLevel -> CodeExecutionRequest -> runner_outcome)
  : manager :=
  start (new cfg run).

(** ** Consistency of a manager state *)

Definition queue_ids (t : Tier) : list string :=
  entry_task <$> TierQueue.entries (tier_queue t).

(** [tid] has an entry in the queue of tier [level]. *)
Definition queued (ts : gmap SecurityLevel Tier) (level : SecurityLevel)
    (tid : string) : Prop :=
  exists tier, ts !! level = Some tier /\ tid ∈ queue_ids tier.

(** The states a worker ends a task in: they come with a result. *)
Definition executed (s : TaskStatus) : bool :=
  match s with
  | SUCCEEDED | FAILED | TIMED_OUT => true
  | PENDING | RUNNING | CANCELLED => false
  end.

Definition result_matches (t : Task) : Prop :=
  match task_result t with
  | Some r => executed (task_state t) = true
              /\ status r = task_state t
              /\ result_task_id r = task_ident t
  | None => executed (task_state t) = false
  end.

Record consistent (m : manager) : Prop := {
  pending_is_queued : forall tid t,
    registry m !! tid = Some t -> task_state t = PENDING ->
    queued (tiers m) (task_tier t) tid;
  ident_is_key : forall tid t,
    registry m !! tid = Some t -> task_ident t = tid;
  result_is_matching : forall tid t,
    registry m !! tid = Some t -> result_matches t;
  tiers_are_configured : forall level,
    is_Some (tiers m !! level) <-> is_Some (config m !! level);
}.


End SpecManager.

(* ================================================================== *)
(** * 5b. Logging configuration *)
(* ================================================================== *)

(** [setup_logging] of [start_service.py] and the logging set-up that
    [service.py] performs when it is imported, over the part of the state
    of Python's [logging] module that they touch. *)
Module Logging.

(** The values [--log-level] accepts ([choices] of the argument parser);
    [main] passes one of them to [setup_logging]. *)
Inductive level_choice := DEBUG | INFO | WARNING | ERROR.

(** [logging.DEBUG], [logging.INFO], [logging.WARNING], [logging.ERROR]. *)
Definition logging_DEBUG : Z := 10.
Definition logging_INFO : Z := 20.
Definition logging_WARNING : Z := 30.
Definition logging_ERROR : Z := 40.

(** [getattr(logging, log_level.upper(), logging.INFO)]: the four names are
    upper case already and all are attributes of [logging]. *)
Definition level_of_choice (c : level_choice) : Z :=
  match c with
  | DEBUG => logging_DEBUG
  | INFO => logging_INFO
  | WARNING => logging_WARNING
  | ERROR => logging_ERROR
  end.

(** The handlers of the root logger (each by its format), the level of
    the root logger, and the levels set on named loggers (absent: not set). *)
Record logging_state := {
  root_handlers : list string;
  root_level : Z;
  logger_levels : gmap string Z;
}.

(** A new interpreter: no handler, root at WARNING. *)
Definition fresh : logging_state :=
  {| root_handlers := []; root_level := logging_WARNING; logger_levels := ∅ |}.

Definition log_format : string :=
  "%(asctime)s - %(name)s - %(levelname)s - %(message)s".

(** [logging.basicConfig(level=..., format=...)]: does nothing when the
    root logger already has a handler. *)
Definition basicConfig (level : Z) (format : string) (st : logging_state)
  : logging_state :=
  match root_handlers st with
  | [] => {| root_handlers := [format]; root_level := level;
             logger_levels := logger_levels st |}
  | _ :: _ => st
  end.

(** [logging.getLogger().setLevel(level)] *)
Definition root_setLevel (level : Z) (st : logging_state) : logging_state :=
  {| root_handlers := root_handlers st; root_level := level;
     logger_levels := logger_levels st |}.

(** [logging.getLogger(name).setLevel(level)] *)
Definition setLevel (name : string) (level : Z) (st : logging_state)
  : logging_state :=
  {| root_handlers := root_handlers st; root_level := root_level st;
     logger_levels := <[name := level]> (logger_levels st) |}.

(** [start_service.setup_logging(log_level, quiet_mode)] *)
Definition setup_logging (log_level : level_choice) (quiet_mode : bool)
    (st : logging_state) : logging_state :=
  let level := level_of_choice log_level in
  let st := basicConfig level log_format st in
  if quiet_mode then
    setLevel "apscheduler" logging_ERROR
      (setLevel "uvicorn.access" logging_ERROR
         (setLevel "uvicorn" logging_ERROR
            (root_setLevel logging_ERROR st)))
  else
    setLevel "apscheduler" logging_WARNING
      (setLevel "uvicorn.access" logging_WARNING st).

(** The statements [service.py] runs when it is imported (its first
    lines after the imports). *)
Definition service_import (st : logging_state) : logging_state :=
  setLevel "apscheduler" logging_WARNING
    (setLevel "uvicorn.access" logging_WARNING
       (basicConfig logging_INFO log_format st)).

(** ** [main] of [start_service.py] *)

(** The parsed command line; [default_args] holds the defaults of the
    argument parser. *)
Record Args := {
  host : string;
  port : Z;
  log_level : level_choice;
  quiet : bool;
  reload : bool;
}.

Definition default_args : Args :=
  {| host := "0.0.0.0"; port := 8000; log_level := INFO;
     quiet := false; reload := false |}.

(** [args.log_level.lower()] *)
Definition lower_name (c : level_choice) : string :=
  match c with
  | DEBUG => "debug"
  | INFO => "info"
  | WARNING => "warning"
  | ERROR => "error"
  end.

(** The keyword arguments of the call to [uvicorn.run]. *)
Record uvicorn_call := {
  app : string;
  run_host : string;
  run_port : Z;
  run_reload : bool;
  run_log_level : string;
  access_log : bool;
}.

(** How the call to [uvicorn.run] ends: it returns; the user interrupts
    it; it raises an [Exception] whose text is [str(e)]; it raises
    [SystemExit] (uvicorn ends a failed start with [sys.exit]); or it
    raises some other [BaseException].  The last two are no [Exception] and
    pass both [except] clauses of [main]. *)
Inductive run_outcome :=
  | Returned
  | KeyboardInterrupt
  | Raised (text : string)
  | SystemExit (code : Z)
  | OtherBaseException (name : string).

(** What [main] writes, and through which channel. *)
Inductive action :=
  | Print (line : string)
  | LoggerInfo (line : string)
  | LoggerError (line : string).

(** How [main] ends: it returns; the process exits with a status
    ([sys.exit(1)] in [main], or a [SystemExit] passing through); or an
    exception leaves it uncaught. *)
Inductive ending :=
  | Returns
  | Exits (code : Z)
  | Uncaught (name : string).

Record main_result := {
  logging_before_run : logging_state;
  call : uvicorn_call;
  actions : list action;
  ended : ending;
}.

(** The three lines [main] writes before it starts the server. *)
Definition banner (args : Args) : list action :=
  let address :=
    "📍 服务地址: http://" +:+ host args +:+ ":" +:+ pretty (port args) in
  let docs :=
    "📖 API文档: http://" +:+ host args +:+ ":" +:+ pretty (port args)
    +:+ "/docs" in
  if quiet args then
    [Print "🚀 代码沙箱服务启动中... (静默模式)"; Print address; Print docs]
  else
    [LoggerInfo "🚀 启动代码沙箱服务..."; LoggerInfo address; LoggerInfo docs].

(** The line written when the server was interrupted, and the one
    written when it raised. *)
Definition stopped_line (args : Args) : action :=
  if negb (quiet args) then LoggerInfo "👋 服务已停止"
  else Print "👋 服务已停止".

Definition failure_line (args : Args) (text : string) : action :=
  if negb (quiet args) then LoggerError ("❌ 服务启动失败: " +:+ text)
  else Print ("❌ 服务启动失败: " +:+ text).

Definition main (args : Args) (st : logging_state)
    (server : uvicorn_call -> run_outcome) : main_result :=
  let st' := setup_logging (log_level args) (quiet args) st in
  let c :=
    {| app := "service:app";
       run_host := host args;
       run_port := port args;
       run_reload := reload args;
       run_log_level :=
         if negb (quiet args) then lower_name (log_level args) else "error";
       access_log := negb (quiet args) |} in
  match server c with
  | Returned =>
      {| logging_before_run := st'; call := c; actions := banner args;
         ended := Returns |}
  | KeyboardInterrupt =>
      {| logging_before_run := st'; call := c;
         actions := banner args ++ [stopped_line args];
         ended := Returns |}
  | Raised text =>
      {| logging_before_run := st'; call := c;
         actions := banner args ++ [failure_line args text];
         ended := Exits 1 |}
  | SystemExit code =>
      {| logging_before_run := st'; call := c; actions := banner args;
         ended := Exits code |}
  | OtherBaseException name =>
      {| logging_before_run := st'; call := c; actions := banner args;
         ended := Uncaught name |}
  end.

(** The numeric level uvicorn gives to the name it is passed
    ([uvicorn.config.LOG_LEVELS]). *)
Definition uvicorn_LOG_LEVELS : gmap string Z :=
  {[ "critical" := 50; "error" := 40; "warning" := 30; "info" := 20;
     "debug" := 10; "trace" := 5 ]}%Z.

Definition is_print (a : action) : bool :=
  match a with Print _ => true | _ => false end.


End Logging.

(* ================================================================== *)
(** * 6. Vocabulary of the statements *)
(* ================================================================== *)

(** The queue size [submit_code_execution] reads from a queue report
    for a tier: absent tier or absent entry count as 0. *)
Definition observed_queue_size (queues : gmap string tier_info)
    (level : SecurityLevel) : Z :=
  default 0%Z (default ∅ (queues !! SecurityLevel_value level) !! "queue_size").

(** The answers the endpoints build. *)
Definition status_response (tid st : string) : ApiResponse :=
  {| success := true;
     message := "获取任务状态成功";
     data := Some (TaskStatusData tid st) |}.

Definition result_response (r : ExecutionResult) : ApiResponse :=
  {| success := true; message := "获取任务结果成功"; data := Some (ResultData r) |}.

Definition result_not_found : outcome ApiResponse :=
  Raise (HTTPException 404 "任务结果不存在").


Definition cancel_response (tid : string) (ok : bool) : outcome ApiResponse :=
  if ok then
    Return {| success := true; message := "任务取消成功";
              data := Some (TaskStatusData tid "cancelled") |}
  else Raise (HTTPException 400 "任务无法取消（可能已在执行中或不存在）").

Definition internal_error_response : http_response :=
  {| http_status := 500;
     http_body := JsonApiResponse {| success := false;
                                     message := "服务器内部错误";
                                     data := None |} |}.

Definition uses_manager (rq : request) : bool :=
  match rq with GET_root => false | _ => true end.

Definition guarded_without_reraise (rq : request) : bool :=
  match rq with
  | GET_queues_info | GET_executors_status | GET_system_status => true
  | _ => false
  end.

(** A call that does not raise an [HTTPException]. *)
Definition not_http {A} (o : outcome A) : Prop :=
  match o with
  | Raise (HTTPException _ _) => False
  | _ => True
  end.







(** Whether the manager method behind a monitoring route returns. *)
Definition monitoring_returns {M} `{!ExecutorManager M} (m : M) (rq : request)
  : Prop :=
  match rq with
  | GET_queues_info => exists info, mgr_get_queue_info m = Return info
  | GET_executors_status => exists r, mgr_get_executor_status m = Return r
  | GET_system_status => exists r, mgr_get_system_status m = Return r
  | _ => False
  end.

(** A queue report [submit_code_execution] cannot use: the call raised
    (not an [HTTPException]) or the dictionary has no ["queues"] entry. *)
Definition report_unusable (o : outcome queue_info) : Prop :=
  match o with
  | Return info => info !! "queues" = None
  | Raise (HTTPException _ _) => False
  | Raise (PyError _ _) => True
  end.

(** The answer of [submit_code_execution] for an exception [e] that
    [submit_task] raised. *)
Definition submit_failure (e : exn) : exn :=
  match e with
  | HTTPException c d => HTTPException c d
  | PyError _ _ => HTTPException 500 ("提交任务失败: " +:+ py_str e)
  end.

(** ** A concrete configuration and history *)

Module Scenario.
Import SpecManager.

Definition cfg0 : gmap SecurityLevel nat := {[ LOW := 2; HIGH := 1 ]}.

Definition run0 (level : SecurityLevel) (rq : CodeExecutionRequest)
  : runner_outcome :=
  match level with
  | LOW => Completed "Hello, World!" "" 0 12 1024 10
  | MEDIUM => FaultSignal "sandbox crashed"
  | HIGH => TimeoutSignal
  end.

Definition ops0 : ExecutorManager manager :=
  manager_ops cfg0 run0 AnswersNone.

(** The same manager with a [get_task_result] that raises for an unknown
    identifier. *)
Definition ops0_raising : ExecutorManager manager :=
  manager_ops cfg0 run0 RaisesNotFound.

(** Three submissions, one of them dispatched and completed, one
    cancelled, one still waiting. *)
Definition history0 : list event :=
  [ESubmit (test_request LOW) 1; ESubmit (test_request LOW) 5;
   ESubmit (test_request HIGH) 3; EDispatch LOW; EComplete "task-1";
   ECancel "task-2"].

Definition m0 : manager := initial cfg0 run0.
Definition m1 : manager := run_events m0 history0.

(** Code made of a space, a tab and a line feed. *)
Definition blank_request : CodeExecutionRequest :=
  {| code := [32; 9; 10]%N; code_type := PYTHON;
     user_info := {| user_id := "u"; username := "u"; permissions := [] |};
     security_level := LOW; timeout_seconds := 10; input_data := None |}.

End Scenario.

(** ** Table-driven managers *)

(** A manager that answers every call from a fixed table, whatever the
    identifier, and never changes. *)
Module Stub.

Record table := {
  running : bool;
  submitted : outcome string;
  cancelled : outcome bool;
  known_status : outcome (option string);
  stored_result : outcome (option ExecutionResult);
  queue_report : outcome queue_info;
  report : outcome pyval;
}.

Definition ops : ExecutorManager table := {|
  mgr_new := {| running := false; submitted := Return "stub";
                cancelled := Return false; known_status := Return None;
                stored_result := Return None; queue_report := Return ∅;
                report := Return PyNone |};
  mgr_start := fun t => t;
  mgr_stop := fun t => t;
  mgr_is_running := running;
  mgr_submit_task := fun t _ _ => (t, submitted t);
  mgr_cancel_task := fun t _ => (t, cancelled t);
  mgr_get_task_status := fun t _ => known_status t;
  mgr_get_task_result := fun t _ => stored_result t;
  mgr_get_queue_info := queue_report;
  mgr_get_executor_status := report;
  mgr_get_system_status := report;
|}.

Definition a_result : ExecutionResult :=
  {| result_task_id := "t1"; status := SUCCEEDED;
     output := Some "42"; error := None; return_code := Some 0%Z;
     execution_time := Some 3%Z; memory_usage := None; cpu_usage := None;
     start_time := None; end_time := None |}.

(** Accepts submissions; its queue report has no ["queues"] entry. *)
Definition no_queues : table :=
  {| running := true; submitted := Return "t1"; cancelled := Return true;
     known_status := Return (Some "no such state");
     stored_result := Return (Some a_result);
     queue_report := Return ∅; report := Return PyNone |}.

(** Accepts submissions; its queue report lists no tier. *)
Definition no_tier : table :=
  {| running := true; submitted := Return "t1"; cancelled := Return true;
     known_status := Return (Some "no such state");
     stored_result := Return None;
     queue_report := Return {[ "queues" := ∅ ]}; report := Return PyNone |}.

(** Every method raises. *)
Definition failing : table :=
  {| running := true;
     submitted := Raise (PyError (OtherError "RuntimeError") "boom");
     cancelled := Raise (PyError (OtherError "RuntimeError") "boom");
     known_status := Raise (PyError (OtherError "RuntimeError") "boom");
     stored_result := Raise (PyError (OtherError "RuntimeError") "boom");
     queue_report := Raise (PyError (OtherError "RuntimeError") "boom");
     report := Raise (PyError (OtherError "RuntimeError") "boom") |}.

End Stub.

(* ================================================================== *)
(** * 7. Theory *)
(* ================================================================== *)

(** ** 7.1 Blank code *)

Lemma lstrip_nil (s : pystr) : lstrip s = [] <-> forallb py_isspace s = true.
Proof.
  induction s as [|c s IH]; simpl; [done|].
  destruct (py_isspace c); simpl; [done|]. split; discriminate.
Qed.

Lemma lstrip_head (s : pystr) (c : N) (s' : pystr) :
  lstrip s = c :: s' -> py_isspace c = false.
Proof.
  induction s as [|a s IH]; simpl; [discriminate|].
  destruct (py_isspace a) eqn:Ha; [done|]. intros [= <- _]. done.
Qed.

Lemma lstrip_suffix (s : pystr) : exists p, s = p ++ lstrip s.
Proof.
  induction s as [|a s [p Hp]]; simpl; [by exists []|].
  destruct (py_isspace a).
  - exists (a :: p). simpl. by f_equal.
  - by exists [].
Qed.

Lemma forallb_rev {A} (f : A -> bool) (l : list A) :
  forallb f (rev l) = forallb f l.
Proof.
  induction l as [|a l IH]; simpl; [done|].
  rewrite forallb_app, IH. simpl. rewrite andb_true_r. apply andb_comm.
Qed.

(** [code.strip()] is empty exactly when the code is empty or holds
    nothing but whitespace. *)
Lemma strip_blank (s : pystr) :
  py_not_str (strip s) = true <-> forallb py_isspace s = true.
Proof.
  unfold strip, rstrip. split.
  - intros H. destruct (rev (lstrip (rev (lstrip s)))) eqn:E; [|done].
    apply (f_equal (@rev N)) in E. rewrite rev_involutive in E. simpl in E.
    apply lstrip_nil in E. rewrite forallb_rev in E.
    destruct (lstrip s) as [|c s'] eqn:Es; [by apply lstrip_nil|].
    apply lstrip_head in Es. simpl in E. rewrite Es in E. done.
  - intros H. apply lstrip_nil in H. rewrite H. done.
Qed.

Example strip_example :
  strip (pystr_of_string "  x y " ++ [10; 12288]%N) = pystr_of_string "x y".
Proof. reflexivity. Qed.

Example strip_blank_example :
  strip [32; 9; 10; 160; 8232]%N = [] /\ strip [] = [].
Proof. split; reflexivity. Qed.


(** ** 7.2 The handlers, for any manager *)

Section handlers.
Context {M : Type} `{!ExecutorManager M}.

Lemma except_reraise_http_return {A} (prefix : string) (o : outcome A) (a : A) :
  except_reraise_http prefix o = Return a -> o = Return a.
Proof. destruct o as [|[]]; simpl; congruence. Qed.

Lemma except_reraise_http_classified {A} (prefix : string) (o : outcome A) :
  (exists a, except_reraise_http prefix o = Return a)
  \/ (exists c d, except_reraise_http prefix o = Raise (HTTPException c d)).
Proof. destruct o as [|[]]; simpl; eauto. Qed.

Lemma except_exception_classified {A} (prefix : string) (o : outcome A) :
  (exists a, except_exception prefix o = Return a /\ o = Return a)
  \/ (exists d, except_exception prefix o = Raise (HTTPException 500 d)).
Proof. destruct o; simpl; eauto. Qed.

(** C1. An accepted submission answers with the identifier
    [submit_task] returned, [queue_position] equal to the tier's queue
    size read from the manager's queue report during the submission plus
    1, and [estimated_wait_time] equal to that size times 10. *)
Theorem submit_payload (m : M) (rq : CodeExecutionRequest) (priority : Z)
    (manager' : option M) (resp : ApiResponse) :
  submit_code_execution (Some m) rq priority = (manager', Return resp) ->
  exists m' tid info queues,
    mgr_submit_task m rq priority = (m', Return tid)
    /\ manager' = Some m'
    /\ mgr_get_queue_info m' = Return info
    /\ info !! "queues" = Some queues
    /\ success resp = true
    /\ data resp = Some (SubmissionData
         {| task_id := tid;
            estimated_wait_time :=
              (observed_queue_size queues (security_level rq) * 10)%Z;
            queue_position :=
              (observed_queue_size queues (security_level rq) + 1)%Z |}).
Proof.
  unfold submit_code_execution.
  destruct (py_not_str (strip (code rq))); [intros [= _ ?]; done|].
  destruct (mgr_submit_task m rq priority) as [m' submitted] eqn:Hs.
  intros [= <- H]. apply except_reraise_http_return in H.
  destruct submitted as [tid|]; [|done]. simpl in H.
  destruct (mgr_get_queue_info m') as [info|] eqn:Hq; [|done]. simpl in H.
  unfold py_getitem in H.
  destruct (info !! "queues") as [queues|] eqn:Hi; [|done]. simpl in H.
  injection H as <-. exists m', tid, info, queues. done.
Qed.

(** C2 (amended). With an initialized manager, a submission whose code
    is empty or only whitespace is answered 400 and the manager is left
    as it was, whatever its [submit_task] would do: no task is created.
    Without a manager the same submission is answered 503. *)
Theorem blank_code_rejected (executor_manager : option M)
    (rq : CodeExecutionRequest) (priority : Z) :
  forallb py_isspace (code rq) = true ->
  submit_code_execution executor_manager rq priority =
    match executor_manager with
    | Some m => (Some m, Raise (HTTPException 400 "代码内容不能为空"))
    | None => (None, Raise (HTTPException 503 "执行器管理器未初始化"))
    end.
Proof.
  intros H. apply strip_blank in H. unfold submit_code_execution.
  destruct executor_manager as [m|]; [|done]. by rewrite H.
Qed.

(** The converse guard: code with a visible character reaches
    [submit_task]. *)
Lemma visible_code_submitted (m : M) (rq : CodeExecutionRequest) (priority : Z) :
  forallb py_isspace (code rq) = false ->
  (submit_code_execution (Some m) rq priority).1
  = Some (mgr_submit_task m rq priority).1.
Proof.
  intros H. unfold submit_code_execution.
  destruct (py_not_str (strip (code rq))) eqn:E.
  - apply strip_blank in E. congruence.
  - by destruct (mgr_submit_task m rq priority).
Qed.

(** C4. The status query answers with the state the manager reports for
    the identifier when the task exists, with 404 when the manager knows
    no such task, and a successful answer carries exactly the reported
    state. *)
Theorem status_query (m : M) (tid : string) :
  (forall st, mgr_get_task_status m tid = Return (Some st) ->
     get_task_status (Some m) tid = Return (status_response tid st))
  /\ (mgr_get_task_status m tid = Return None ->
     get_task_status (Some m) tid = Raise (HTTPException 404 "任务不存在"))
  /\ (forall resp, get_task_status (Some m) tid = Return resp ->
     exists st, mgr_get_task_status m tid = Return (Some st)
                /\ success resp = true
                /\ data resp = Some (TaskStatusData tid st)).
Proof.
  unfold get_task_status. repeat split.
  - by intros st ->.
  - by intros ->.
  - intros resp H. apply except_reraise_http_return in H.
    destruct (mgr_get_task_status m tid) as [[st|]|]; simplify_eq/=.
    by exists st.
Qed.

(** Outcome of the result query in terms of the manager's answer. *)
Lemma result_query_relay (m : M) (tid : string) :
  (forall r, mgr_get_task_result m tid = Return (Some r) ->
     get_task_result (Some m) tid =
       Return {| success := true; message := "获取任务结果成功";
                 data := Some (ResultData r) |})
  /\ (mgr_get_task_result m tid = Return None ->
     get_task_result (Some m) tid = Raise (HTTPException 404 "任务结果不存在")).
Proof. unfold get_task_result. split; [by intros r ->|by intros ->]. Qed.

(** C9. For a task the manager reports in state [st] and for which it
    holds no result, the legacy endpoint returns a successful answer
    (sent as HTTP 200) whose result carries the identifier, [st] as
    status and [None] in the eight other fields; when the manager answers
    both queries, the endpoint says not-found only for a task the manager
    does not know. *)
Theorem legacy_placeholder (m : M) (tid : string) :
  (forall st,
     mgr_get_task_status m tid = Return (Some (TaskStatus_value st)) ->
     mgr_get_task_result m tid = Return None ->
     exists r,
       get_task_status_legacy (Some m) tid =
         Return {| success := true; message := "获取任务状态成功";
                   data := Some (ResultData r) |}
       /\ http_status (respond (get_task_status_legacy (Some m) tid)) = 200%Z
       /\ result_task_id r = tid /\ status r = st
       /\ output r = None /\ error r = None /\ return_code r = None
       /\ execution_time r = None /\ memory_usage r = None
       /\ cpu_usage r = None /\ start_time r = None /\ end_time r = None)
  /\ (forall known stored,
     mgr_get_task_status m tid = Return known ->
     mgr_get_task_result m tid = Return stored ->
     (exists d, get_task_status_legacy (Some m) tid = Raise (HTTPException 404 d))
     <-> known = None).
Proof.
  unfold get_task_status_legacy. split.
  - intros st -> ->. simpl. unfold TaskStatus_call.
    assert (TaskStatus_of_value (TaskStatus_value st) = Some st) as ->
      by by destruct st.
    simpl. eexists. split; [reflexivity|]. done.
  - intros known stored -> ->. simpl. split.
    + intros [d H]. destruct known as [st|]; [|done]. exfalso.
      destruct stored as [r|]; simpl in H; [done|].
      unfold TaskStatus_call in H.
      destruct (TaskStatus_of_value st); simpl in H; congruence.
    + intros ->. eauto.
Qed.

(** ** 7.3 Classification of the responses *)

Ltac handler_cases :=
  repeat match goal with
         | |- context [match ?x with _ => _ end] =>
             lazymatch x with
             | context [match _ with _ => _ end] => fail
             | _ => destruct x eqn:?; simpl
             end
         end.

(** C8. Whatever the request, the state of the service and the
    behaviour of the manager, the application answers in one of three
    ways: a successful [ApiResponse] sent with status 200; the status and
    detail of an [HTTPException] raised by the handler; or, for an
    exception that is not an [HTTPException] (only the health check can let
    one through), the structured 500 answer of the global handler. *)
Theorem every_request_answered (executor_manager : option M) (rq : request) :
  let o := (handle executor_manager rq).2 in
  let resp := (serve executor_manager rq).2 in
  (exists a, o = Return a /\ success a = true
             /\ resp = {| http_status := 200; http_body := JsonApiResponse a |})
  \/ (exists c d, o = Raise (HTTPException c d)
                  /\ resp = {| http_status := c; http_body := JsonDetail d |})
  \/ (exists cls t, o = Raise (PyError cls t) /\ rq = GET_health
                    /\ resp = internal_error_response).
Proof.
  unfold serve.
  destruct rq; simpl;
    unfold root, health_check, submit_test_task, submit_code_execution,
      get_task_status, get_task_result, get_task_status_legacy, cancel_task,
      get_queue_info, get_executor_status, get_system_status,
      except_reraise_http, except_exception, not_initialized, py_getitem,
      TaskStatus_call, mbind, outcome_bind;
    handler_cases; simplify_eq/=; eauto 10.
Qed.

(** The endpoints that answer 503 without a manager, and the health
    check of a manager that is not running. *)
Lemma unavailable_without_manager (rq : request) :
  uses_manager rq = true -> guarded_without_reraise rq = false ->
  exists d, @serve M _ None rq =
    (None, {| http_status := 503; http_body := JsonDetail d |}).
Proof. destruct rq; simpl; try done; intros _ _; eauto. Qed.

Lemma unhealthy_when_not_running (m : M) :
  mgr_is_running m = false ->
  health_check (Some m) = Raise (HTTPException 503 "服务不可用").
Proof. unfold health_check. by intros ->. Qed.

(** C10 (what the code does where the claim fails). Without a manager,
    the three monitoring endpoints whose [try] block has the single
    clause [except Exception] raise the 503 and catch it themselves: the
    answer is a 500 whose detail quotes the 503. *)
Theorem monitoring_without_manager :
  @serve M _ None GET_queues_info =
    (None, {| http_status := 500;
              http_body := JsonDetail
                "获取队列信息失败: 503: 执行器管理器未初始化" |})
  /\ @serve M _ None GET_executors_status =
    (None, {| http_status := 500;
              http_body := JsonDetail
                "获取执行器状态失败: 503: 执行器管理器未初始化" |})
  /\ @serve M _ None GET_system_status =
    (None, {| http_status := 500;
              http_body := JsonDetail
                "获取系统状态失败: 503: 执行器管理器未初始化" |}).
Proof. done. Qed.

End handlers.

(** ** 7.4 The manager model: invariants *)

Section manager_invariants.
Import SpecManager.

Lemma take_best_perm (l : list QueueEntry) (b : QueueEntry)
    (rest : list QueueEntry) :
  TierQueue.take_best l = Some (b, rest) -> l ≡ₚ b :: rest.
Proof.
  revert b rest. induction l as [|e l IH]; intros b rest; simpl; [done|].
  destruct (TierQueue.take_best l) as [[b' rest']|] eqn:E.
  - specialize (IH _ _ eq_refl).
    destruct (TierQueue.before b' e); intros [= <- <-]; [|done].
    rewrite IH. apply Permutation_swap.
  - intros [= <- <-]. destruct l as [|e' l]; [done|].
    simpl in E. destruct (TierQueue.take_best l) as [[? ?]|];
      [destruct (TierQueue.before _ _)|]; done.
Qed.

Lemma queue_ids_filter (l : list QueueEntry) (tid tid' : string) :
  tid' ≠ tid ->
  tid' ∈ entry_task <$> l ->
  tid' ∈ entry_task <$> filter (fun e => entry_task e ≠ tid) l.
Proof.
  intros Hne (e & -> & He)%list_elem_of_fmap.
  apply list_elem_of_fmap. exists e. split; [done|].
  apply list_elem_of_filter. done.
Qed.

Lemma queued_insert (ts : gmap SecurityLevel Tier) (level L : SecurityLevel)
    (tier tier' : Tier) (tid : string) :
  ts !! level = Some tier ->
  (tid ∈ queue_ids tier -> tid ∈ queue_ids tier') ->
  queued ts L tid -> queued (<[level := tier']> ts) L tid.
Proof.
  intros Hl Hin (t0 & Ht0 & Hid). unfold queued.
  destruct (decide (level = L)) as [->|Hne].
  - rewrite lookup_insert_eq. exists tier'. split; [done|].
    apply Hin. congruence.
  - rewrite lookup_insert_ne by done. eauto.
Qed.

Lemma queued_fmap (f : Tier -> Tier) (ts : gmap SecurityLevel Tier)
    (L : SecurityLevel) (tid : string) :
  (forall t, tier_queue (f t) = tier_queue t) ->
  queued ts L tid -> queued (f <$> ts) L tid.
Proof.
  intros Hf (t0 & Ht0 & Hid). exists (f t0).
  rewrite lookup_fmap, Ht0. split; [done|].
  unfold queue_ids. by rewrite Hf.
Qed.

Lemma queued_alter (f : Tier -> Tier) (ts : gmap SecurityLevel Tier)
    (level L : SecurityLevel) (tid : string) :
  (forall t, tier_queue (f t) = tier_queue t) ->
  queued ts L tid -> queued (alter f level ts) L tid.
Proof.
  intros Hf (t0 & Ht0 & Hid).
  destruct (decide (level = L)) as [->|Hne].
  - exists (f t0). rewrite lookup_alter_eq, Ht0. split; [done|].
    unfold queue_ids. by rewrite Hf.
  - exists t0. by rewrite lookup_alter_ne.
Qed.

Lemma is_Some_insert_present {V} (ts : gmap SecurityLevel V)
    (level L : SecurityLevel) (v v' : V) :
  ts !! level = Some v ->
  is_Some (<[level := v']> ts !! L) <-> is_Some (ts !! L).
Proof.
  intros Hl. destruct (decide (level = L)) as [->|Hne].
  - rewrite lookup_insert_eq, Hl. split; eauto.
  - by rewrite lookup_insert_ne.
Qed.

Lemma consistent_initial (cfg : gmap SecurityLevel nat)
    (run : SecurityLevel -> CodeExecutionRequest -> runner_outcome) :
  consistent (initial cfg run).
Proof.
  split; simpl; try (intros tid t; by rewrite lookup_empty).
  intros level. rewrite lookup_fmap. apply fmap_is_Some.
Qed.

Lemma consistent_submit (m : manager) (rq : CodeExecutionRequest) (prio : Z) :
  consistent m -> consistent (submit m rq prio).1.
Proof.
  intros [Hp Hi Hr Ht]. unfold submit.
  destruct (is_running m); simpl; [|by split].
  destruct (tiers m !! security_level rq) as [tier|] eqn:Htier; simpl;
    [|by split].
  split; simpl.
  - intros tid t Hl Hs.
    destruct (decide (Registry.make_id (next_id m) = tid)) as [<-|Hne].
    + rewrite lookup_insert_eq in Hl. injection Hl as <-.
      unfold task_tier, queued. simpl. rewrite lookup_insert_eq.
      eexists. split; [done|]. unfold queue_ids. simpl.
      rewrite fmap_app. apply elem_of_app. right. apply list_elem_of_singleton.
      done.
    + rewrite lookup_insert_ne in Hl by done.
      eapply queued_insert; [done| |by eapply Hp].
      unfold queue_ids. simpl. rewrite fmap_app. intros ?.
      apply elem_of_app. by left.
  - intros tid t Hl.
    destruct (decide (Registry.make_id (next_id m) = tid)) as [<-|Hne].
    + rewrite lookup_insert_eq in Hl. by injection Hl as <-.
    + rewrite lookup_insert_ne in Hl by done. eauto.
  - intros tid t Hl.
    destruct (decide (Registry.make_id (next_id m) = tid)) as [<-|Hne].
    + rewrite lookup_insert_eq in Hl. by injection Hl as <-.
    + rewrite lookup_insert_ne in Hl by done. eauto.
  - intros level. rewrite <- Ht. by eapply is_Some_insert_present.
Qed.

Lemma remove_entry_queued (ts : gmap SecurityLevel Tier)
    (level L : SecurityLevel) (tid tid' : string) :
  tid' ≠ tid ->
  queued ts L tid' -> queued (remove_entry ts level tid).1 L tid'.
Proof.
  intros Hne Hq. unfold remove_entry.
  destruct (ts !! level) as [tier|] eqn:Htier; simpl; [|done].
  eapply queued_insert; [done| |done].
  unfold queue_ids. simpl. by apply queue_ids_filter.
Qed.

Lemma remove_entry_dom (ts : gmap SecurityLevel Tier)
    (level L : SecurityLevel) (tid : string) :
  is_Some ((remove_entry ts level tid).1 !! L) <-> is_Some (ts !! L).
Proof.
  unfold remove_entry.
  destruct (ts !! level) as [tier|] eqn:Htier; simpl; [|done].
  by eapply is_Some_insert_present.
Qed.


Lemma consistent_cancel (m : manager) (tid : string) :
  consistent m -> consistent (cancel m tid).1.
Proof.
  intros [Hp Hi Hr Ht]. unfold cancel.
  destruct (registry m !! tid) as [t|] eqn:Hreg; [|by split].
  pose proof (fun L tid' => remove_entry_queued (tiers m) (task_tier t) L tid tid')
    as Hq.
  pose proof (fun L => remove_entry_dom (tiers m) (task_tier t) L tid) as Hd.
  destruct (remove_entry (tiers m) (task_tier t) tid) as [tiers' removed].
  simpl in Hq, Hd.
  unfold Registry.mark_cancelled. rewrite Hreg.
  destruct (decide (task_state t = PENDING)) as [Hpend|Hnp]; simpl.
  - split; simpl.
    + intros tid' t' Hl Hs.
      destruct (decide (tid = tid')) as [<-|Hne].
      * rewrite lookup_insert_eq in Hl. by injection Hl as <-.
      * rewrite lookup_insert_ne in Hl by done. apply Hq; eauto.
    + intros tid' t' Hl.
      destruct (decide (tid = tid')) as [<-|Hne].
      * rewrite lookup_insert_eq in Hl. injection Hl as <-. simpl. eauto.
      * rewrite lookup_insert_ne in Hl by done. eauto.
    + intros tid' t' Hl.
      destruct (decide (tid = tid')) as [<-|Hne].
      * rewrite lookup_insert_eq in Hl. by injection Hl as <-.
      * rewrite lookup_insert_ne in Hl by done. eauto.
    + intros level. by rewrite Hd.
  - split; simpl; eauto.
    + intros tid' t' Hl Hs. apply Hq; eauto. congruence.
    + intros level. by rewrite Hd.
Qed.

Lemma consistent_dispatch (m : manager) (level : SecurityLevel) :
  consistent m -> consistent (dispatch m level).
Proof.
  intros Hc. pose proof Hc as [Hp Hi Hr Ht]. unfold dispatch.
  destruct (is_running m); simpl; [|done].
  destruct (tiers m !! level) as [tier|] eqn:Htier; [|done].
  destruct (ExecutorPool.acquire (tier_pool tier)) as [pool|]; [|done].
  unfold TierQueue.dequeue_best.
  destruct (TierQueue.take_best (TierQueue.entries (tier_queue tier)))
    as [[e rest]|] eqn:Hbest; [|done].
  apply take_best_perm in Hbest.
  assert (forall pool' L tid', tid' ≠ entry_task e ->
            queued (tiers m) L tid' ->
            queued (<[level := {| tier_queue :=
                                    {| TierQueue.entries := rest;
                                       TierQueue.next_seq :=
                                         TierQueue.next_seq (tier_queue tier) |};
                                  tier_pool := pool' |}]> (tiers m)) L tid')
    as Hq.
  { intros pool' L tid' Hne Hqd.
    eapply queued_insert; [done| |done].
    unfold queue_ids. simpl. rewrite Hbest. rewrite fmap_cons.
    intros [?|?]%elem_of_cons; done. }
  unfold Registry.mark_running.
  destruct (registry m !! entry_task e) as [t|] eqn:Hreg.
  - destruct (decide (task_state t = PENDING)) as [Hpend|Hnp].
    + split; simpl.
      * intros tid' t' Hl Hs.
        destruct (decide (entry_task e = tid')) as [<-|Hne].
        -- rewrite lookup_insert_eq in Hl. by injection Hl as <-.
        -- rewrite lookup_insert_ne in Hl by done. apply Hq; eauto.
      * intros tid' t' Hl.
        destruct (decide (entry_task e = tid')) as [<-|Hne].
        -- rewrite lookup_insert_eq in Hl. injection Hl as <-. simpl. eauto.
        -- rewrite lookup_insert_ne in Hl by done. eauto.
      * intros tid' t' Hl.
        destruct (decide (entry_task e = tid')) as [<-|Hne].
        -- rewrite lookup_insert_eq in Hl. by injection Hl as <-.
        -- rewrite lookup_insert_ne in Hl by done. eauto.
      * intros L. rewrite <- Ht. by eapply is_Some_insert_present.
    + split; simpl; eauto.
      * intros tid' t' Hl Hs. apply Hq; eauto. congruence.
      * intros L. rewrite <- Ht. by eapply is_Some_insert_present.
  - split; simpl; eauto.
    + intros tid' t' Hl Hs. apply Hq; eauto. congruence.
    + intros L. rewrite <- Ht. by eapply is_Some_insert_present.
Qed.

Lemma executed_terminal_state (o : runner_outcome) :
  executed (terminal_state o) = true.
Proof. destruct o; simpl; [case_match|..]; done. Qed.

Lemma build_result_matches (tid : string) (o : runner_outcome) :
  status (build_result tid o) = terminal_state o
  /\ result_task_id (build_result tid o) = tid.
Proof. by destruct o. Qed.

Lemma finish_matches (run : SecurityLevel -> CodeExecutionRequest -> runner_outcome)
    (t : Task) :
  result_matches (finish run t).
Proof.
  unfold result_matches, finish. simpl.
  split; [apply executed_terminal_state|apply build_result_matches].
Qed.

Lemma consistent_complete (m : manager) (tid : string) :
  consistent m -> consistent (complete m tid).
Proof.
  intros Hc. pose proof Hc as [Hp Hi Hr Ht]. unfold complete.
  destruct (registry m !! tid) as [t|] eqn:Hreg; [|done].
  unfold Registry.mark_terminal. rewrite Hreg.
  destruct (decide (task_state t = RUNNING)) as [Hrun|]; [|done].
  set (o := sandbox m (task_tier t) (task_request t)).
  split; simpl.
  - intros tid' t' Hl Hs. apply queued_alter; [done|].
    destruct (decide (tid = tid')) as [<-|Hne].
    + rewrite lookup_insert_eq in Hl. injection Hl as <-. simpl in Hs.
      pose proof (executed_terminal_state o) as He. rewrite Hs in He. done.
    + rewrite lookup_insert_ne in Hl by done. eauto.
  - intros tid' t' Hl.
    destruct (decide (tid = tid')) as [<-|Hne].
    + rewrite lookup_insert_eq in Hl. injection Hl as <-. simpl. eauto.
    + rewrite lookup_insert_ne in Hl by done. eauto.
  - intros tid' t' Hl.
    destruct (decide (tid = tid')) as [<-|Hne].
    + rewrite lookup_insert_eq in Hl. injection Hl as <-.
      unfold result_matches. simpl.
      split; [apply executed_terminal_state|].
      split; [apply build_result_matches|].
      rewrite (Hi _ _ Hreg). apply build_result_matches.
    + rewrite lookup_insert_ne in Hl by done. eauto.
  - intros L. rewrite <- Ht.
    destruct (decide (task_tier t = L)) as [<-|Hne].
    + rewrite lookup_alter_eq. apply fmap_is_Some.
    + by rewrite lookup_alter_ne.
Qed.

Lemma consistent_stop (m : manager) : consistent m -> consistent (stop m).
Proof.
  intros [Hp Hi Hr Ht]. unfold stop. split; simpl.
  - intros tid t' Hl Hs. apply queued_fmap; [done|].
    rewrite lookup_fmap in Hl.
    destruct (registry m !! tid) as [t|] eqn:Hreg; [|done].
    injection Hl as <-. unfold settle in *.
    destruct (decide (task_state t = RUNNING)); [|eauto].
    simpl in Hs. pose proof (executed_terminal_state
      (sandbox m (task_tier t) (task_request t))) as He.
    rewrite Hs in He. done.
  - intros tid t' Hl. rewrite lookup_fmap in Hl.
    destruct (registry m !! tid) as [t|] eqn:Hreg; [|done].
    injection Hl as <-. unfold settle.
    destruct (decide (task_state t = RUNNING)); simpl; eauto.
  - intros tid t' Hl. rewrite lookup_fmap in Hl.
    destruct (registry m !! tid) as [t|] eqn:Hreg; [|done].
    injection Hl as <-. unfold settle.
    destruct (decide (task_state t = RUNNING)); [apply finish_matches|eauto].
  - intros L. rewrite <- Ht, lookup_fmap. apply fmap_is_Some.
Qed.

Lemma consistent_step (m : manager) (e : event) :
  consistent m -> consistent (step m e).
Proof.
  destruct e; simpl;
    auto using consistent_submit, consistent_cancel, consistent_dispatch,
      consistent_complete, consistent_stop.
Qed.

Lemma consistent_run (m : manager) (es : list event) :
  consistent m -> consistent (run_events m es).
Proof.
  revert m. induction es as [|e es IH]; intros m Hc; simpl; [done|].
  apply IH, consistent_step, Hc.
Qed.


(** ** 7.5 The manager model: identifiers and life cycle *)

Lemma make_id_inj : Inj (=) (=) Registry.make_id.
Proof.
  intros a b H. unfold Registry.make_id in H.
  apply String.app_inj in H. by apply (inj pretty).
Qed.

Lemma submit_returns (m : manager) (rq : CodeExecutionRequest) (prio : Z)
    (tid : string) :
  (submit m rq prio).2 = Return tid ->
  tid = Registry.make_id (next_id m)
  /\ next_id (submit m rq prio).1 = (next_id m + 1)%N
  /\ registry (submit m rq prio).1 !! tid
     = Some {| task_ident := tid; task_request := rq; task_priority := prio;
               task_state := PENDING; task_result := None |}.
Proof.
  unfold submit. destruct (is_running m); simpl; [|done].
  destruct (tiers m !! security_level rq); simpl; [|done].
  intros [= <-]. by rewrite lookup_insert_eq.
Qed.

Lemma submit_accepts (m : manager) (rq : CodeExecutionRequest) (prio : Z) :
  is_running m = true -> is_Some (tiers m !! security_level rq) ->
  (submit m rq prio).2 = Return (Registry.make_id (next_id m)).
Proof. unfold submit. by intros -> [tier ->]. Qed.

Lemma next_id_step (m : manager) (e : event) :
  (next_id m <= next_id (step m e))%N.
Proof.
  destruct e as [rq prio|tid|level|tid|]; simpl.
  - unfold submit. destruct (is_running m); simpl; [|lia].
    destruct (tiers m !! security_level rq); simpl; lia.
  - unfold cancel. destruct (registry m !! tid); simpl; [|lia].
    destruct (remove_entry _ _ _), (Registry.mark_cancelled _ _). simpl. lia.
  - unfold dispatch. repeat case_match; simpl; lia.
  - unfold complete. repeat case_match; simpl; lia.
  - lia.
Qed.

Lemma next_id_run (m : manager) (es : list event) :
  (next_id m <= next_id (run_events m es))%N.
Proof.
  revert m. induction es as [|e es IH]; intros m; simpl; [lia|].
  pose proof (next_id_step m e). pose proof (IH (step m e)). lia.
Qed.

(** Every identifier a history hands out is numbered between the
    counter before and the counter after. *)
Lemma issued_numbered (m : manager) (es : list event) (tid : string) :
  tid ∈ issued m es ->
  exists k, (next_id m <= k < next_id (run_events m es))%N
            /\ tid = Registry.make_id k.
Proof.
  revert m. induction es as [|e es IH]; intros m; simpl.
  - by intros ?%elem_of_nil.
  - intros [Hin|Hin]%elem_of_app.
    + destruct e as [rq prio| | | |]; try by apply elem_of_nil in Hin.
      destruct (submit m rq prio).2 as [tid'|] eqn:Hs;
        [|by apply elem_of_nil in Hin].
      apply list_elem_of_singleton in Hin as ->.
      apply submit_returns in Hs as (-> & Hn & _).
      exists (next_id m). split; [|done].
      pose proof (next_id_run (step m (ESubmit rq prio)) es) as Hle.
      unfold run_events in *. simpl in *. lia.
    + destruct (IH _ Hin) as (k & Hk & ->). exists k. split; [|done].
      pose proof (next_id_step m e). unfold run_events in *. simpl in *. lia.
Qed.

Lemma stopped_step (m : manager) (e : event) :
  is_running m = false -> is_running (step m e) = false.
Proof.
  intros H. destruct e as [rq prio|tid|level|tid|]; simpl.
  - unfold submit. by rewrite H.
  - unfold cancel. destruct (registry m !! tid); simpl; [|done].
    by destruct (remove_entry _ _ _), (Registry.mark_cancelled _ _).
  - unfold dispatch. by rewrite H.
  - unfold complete. repeat case_match; done.
  - done.
Qed.

Lemma stopped_run (m : manager) (es : list event) :
  is_running m = false -> is_running (run_events m es) = false.
Proof.
  revert m. induction es as [|e es IH]; intros m H; simpl; [done|].
  by apply IH, stopped_step.
Qed.

Lemma config_step (m : manager) (e : event) : config (step m e) = config m.
Proof.
  destruct e as [rq prio|tid|level|tid|]; simpl.
  - unfold submit. destruct (is_running m); simpl; [|done].
    by destruct (tiers m !! security_level rq).
  - unfold cancel. destruct (registry m !! tid); simpl; [|done].
    by destruct (remove_entry _ _ _), (Registry.mark_cancelled _ _).
  - unfold dispatch. repeat case_match; done.
  - unfold complete. repeat case_match; done.
  - done.
Qed.

Lemma config_run (m : manager) (es : list event) :
  config (run_events m es) = config m.
Proof.
  revert m. induction es as [|e es IH]; intros m; simpl; [done|].
  unfold run_events in IH. by rewrite IH, config_step.
Qed.

End manager_invariants.

(** ** 7.6 The service over the manager model *)

Section service_over_model.
Import SpecManager.
Variable cfg : gmap SecurityLevel nat.
Variable run : SecurityLevel -> CodeExecutionRequest -> runner_outcome.
Variable unknown : unknown_convention.

#[local] Instance ops : ExecutorManager manager := manager_ops cfg run unknown.



(** C6. A submission with visible code to a running manager, for a
    configured tier, is accepted; the identifier in the answer was handed
    out by no earlier submission of the history, and the status query that
    follows reports ["pending"]. *)
Theorem submit_fresh_pending (es : list event) (rq : CodeExecutionRequest)
    (prio : Z) :
  forallb py_isspace (code rq) = false ->
  is_running (run_events (initial cfg run) es) = true ->
  is_Some (cfg !! security_level rq) ->
  exists m' tid wait position,
    submit_code_execution (Some (run_events (initial cfg run) es)) rq prio =
      (Some m',
       Return {| success := true; message := "任务提交成功";
                 data := Some (SubmissionData
                   {| task_id := tid; estimated_wait_time := wait;
                      queue_position := position |}) |})
    /\ (tid ∉ issued (initial cfg run) es)
    /\ get_task_status (Some m') tid = Return (status_response tid "pending").
Proof.
  intros Hcode Hrun Hcfg.
  set (m := run_events (initial cfg run) es) in *.
  assert (consistent m) as [_ _ _ Ht]
    by (apply consistent_run, consistent_initial).
  assert (is_Some (tiers m !! security_level rq)) as Htier.
  { apply Ht. unfold m. by rewrite config_run. }
  pose proof (submit_accepts m rq prio Hrun Htier) as Hs.
  pose proof (submit_returns m rq prio _ Hs) as (_ & _ & Hreg).
  unfold submit_code_execution.
  destruct (py_not_str (strip (code rq))) eqn:E;
    [apply strip_blank in E; congruence|].
  simpl. destruct (submit m rq prio) as [m' o]. simpl in Hs, Hreg. subst o.
  simpl. unfold py_getitem. rewrite lookup_singleton_eq. simpl.
  eexists m', _, _, _. split; [done|]. split.
  - intros (k & Hk & Heq)%issued_numbered. apply make_id_inj in Heq.
    fold m in Hk. lia.
  - unfold get_task_status. simpl. unfold Registry.get_state.
    by rewrite Hreg.
Qed.

(** C7. Once the manager has been stopped (as [lifespan] does on
    shutdown), whatever happens next, a submission to the manager raises
    a [LifecycleError] and changes nothing; through the endpoint it is
    answered by a failure (400 for blank code, 500 otherwise), never by a
    success. *)
Theorem submit_after_stop (es es' : list event) (rq : CodeExecutionRequest)
    (prio : Z) :
  lifespan_shutdown (Some (run_events (initial cfg run) es))
    = Some (stop (run_events (initial cfg run) es))
  /\ submit (run_events (stop (run_events (initial cfg run) es)) es') rq prio
     = (run_events (stop (run_events (initial cfg run) es)) es',
        Raise (PyError LifecycleError "executor manager is not running"))
  /\ exists c d,
       submit_code_execution
         (Some (run_events (stop (run_events (initial cfg run) es)) es')) rq prio
       = (Some (run_events (stop (run_events (initial cfg run) es)) es'),
          Raise (HTTPException c d))
       /\ (c = 400 \/ c = 500)%Z.
Proof.
  split; [done|].
  set (m := run_events (stop _) es').
  assert (is_running m = false) as Hstopped by by apply stopped_run.
  assert (submit m rq prio
          = (m, Raise (PyError LifecycleError "executor manager is not running")))
    as Hs by (unfold submit; by rewrite Hstopped).
  split; [done|].
  unfold submit_code_execution.
  destruct (py_not_str (strip (code rq))); simpl; [eauto|].
  rewrite Hs. simpl. eauto.
Qed.

End service_over_model.

(** ** 7.7 A concrete run *)

Section scenario_facts.
Import SpecManager Scenario.
#[local] Existing Instance ops0.

Example scenario_states :
  Registry.get_state (registry m1) <$> ["task-0"; "task-1"; "task-2"; "task-3"]
  = [Some PENDING; Some SUCCEEDED; Some CANCELLED; None].
Proof. vm_compute. reflexivity. Qed.

(** With priorities 1, 5, 5 submitted in that order to a tier of
    capacity 1, the dispatch order is second, third, first. *)
Example dispatch_order :
  let m := run_events (initial {[ LOW := 1 ]} run0)
             [ESubmit (test_request LOW) 1; ESubmit (test_request LOW) 5;
              ESubmit (test_request LOW) 5] in
  let after1 := dispatch m LOW in
  let after2 := dispatch (complete after1 "task-1") LOW in
  let after3 := dispatch (complete after2 "task-2") LOW in
  Registry.get_state (registry after1) <$> ["task-0"; "task-1"; "task-2"]
    = [Some PENDING; Some RUNNING; Some PENDING]
  /\ Registry.get_state (registry (dispatch after1 LOW)) "task-2" = Some PENDING
  /\ Registry.get_state (registry after2) <$> ["task-0"; "task-1"; "task-2"]
    = [Some PENDING; Some SUCCEEDED; Some RUNNING]
  /\ Registry.get_state (registry after3) <$> ["task-0"; "task-1"; "task-2"]
    = [Some RUNNING; Some SUCCEEDED; Some SUCCEEDED].
Proof. vm_compute. done. Qed.

Lemma submit_payload_witness :
  exists manager' resp,
    submit_code_execution (Some m1) (test_request LOW) 0
      = (manager', Return resp)
    /\ data resp = Some (SubmissionData
         {| task_id := "task-3"; estimated_wait_time := 20;
            queue_position := 3 |})
    /\ exists m' tid info queues,
         mgr_submit_task m1 (test_request LOW) 0 = (m', Return tid)
         /\ manager' = Some m'
         /\ mgr_get_queue_info m' = Return info
         /\ info !! "queues" = Some queues
         /\ success resp = true
         /\ data resp = Some (SubmissionData
              {| task_id := tid;
                 estimated_wait_time :=
                   (observed_queue_size queues LOW * 10)%Z;
                 queue_position :=
                   (observed_queue_size queues LOW + 1)%Z |}).
Proof.
  eexists _, _. split; [vm_compute; reflexivity|].
  split; [vm_compute; reflexivity|].
  apply (submit_payload m1 (test_request LOW) 0). vm_compute. reflexivity.
Defined.

Lemma blank_code_rejected_witness :
  forallb py_isspace (code blank_request) = true
  /\ submit_code_execution (Some m1) blank_request 0
     = (Some m1, Raise (HTTPException 400 "代码内容不能为空")).
Proof.
  split; [reflexivity|].
  apply (blank_code_rejected (Some m1) blank_request 0). reflexivity.
Defined.

(** C2 as stated fails: without a manager, blank code is answered 503,
    not 400. *)
Lemma blank_code_without_manager :
  forallb py_isspace (code blank_request) = true
  /\ (submit_code_execution None blank_request 0).2
     = Raise (HTTPException 503 "执行器管理器未初始化")
  /\ ~ (exists d, (submit_code_execution None blank_request 0).2
                  = Raise (HTTPException 400 d)).
Proof.
  split; [reflexivity|]. split; [reflexivity|]. intros [d H]. discriminate H.
Qed.




(** The two presentations of an unknown identifier, next to a task that
    waits in the queue: the same 404 when the manager returns [None], a 500
    when it raises. *)
Example unknown_identifier_answers :
  (@serve manager ops0 (Some m1) (GET_task_result "task-0")).2
    = {| http_status := 404; http_body := JsonDetail "任务结果不存在" |}
  /\ (@serve manager ops0 (Some m1) (GET_task_result "task-7")).2
    = {| http_status := 404; http_body := JsonDetail "任务结果不存在" |}
  /\ (@serve manager ops0_raising (Some m1) (GET_task_result "task-7")).2
    = {| http_status := 500;
         http_body := JsonDetail "获取任务结果失败: task not found" |}.
Proof. vm_compute. done. Qed.

Lemma status_query_witness :
  mgr_get_task_status m1 "task-0" = Return (Some "pending")
  /\ get_task_status (Some m1) "task-0"
     = Return (status_response "task-0" "pending")
  /\ mgr_get_task_status m1 "task-7" = Return None
  /\ get_task_status (Some m1) "task-7"
     = Raise (HTTPException 404 "任务不存在").
Proof.
  assert (mgr_get_task_status m1 "task-0" = Return (Some "pending")) as H0
    by (vm_compute; reflexivity).
  assert (mgr_get_task_status m1 "task-7" = Return None) as H7
    by (vm_compute; reflexivity).
  split; [exact H0|].
  split; [exact (proj1 (status_query m1 "task-0") "pending" H0)|].
  split; [exact H7|].
  exact (proj1 (proj2 (status_query m1 "task-7")) H7).
Defined.


Example cancel_cases :
  (cancel m1 "task-0").2 = true /\ (cancel m1 "task-1").2 = false
  /\ (cancel m1 "task-2").2 = false /\ (cancel m1 "task-7").2 = false
  /\ (cancel (dispatch m1 LOW) "task-0").2 = false.
Proof. vm_compute. done. Qed.

Lemma submit_fresh_pending_witness :
  forallb py_isspace (code (test_request HIGH)) = false
  /\ is_running (run_events (initial cfg0 run0) history0) = true
  /\ is_Some (cfg0 !! security_level (test_request HIGH))
  /\ exists m' tid wait position,
       submit_code_execution (Some (run_events (initial cfg0 run0) history0))
         (test_request HIGH) 4 =
         (Some m',
          Return {| success := true; message := "任务提交成功";
                    data := Some (SubmissionData
                      {| task_id := tid; estimated_wait_time := wait;
                         queue_position := position |}) |})
       /\ (tid ∉ issued (initial cfg0 run0) history0)
       /\ get_task_status (Some m') tid = Return (status_response tid "pending").
Proof.
  assert (forallb py_isspace (code (test_request HIGH)) = false) as H1
    by (vm_compute; reflexivity).
  assert (is_running (run_events (initial cfg0 run0) history0) = true) as H2
    by (vm_compute; reflexivity).
  assert (is_Some (cfg0 !! security_level (test_request HIGH))) as H3
    by (exists 1; vm_compute; reflexivity).
  split; [exact H1|]. split; [exact H2|]. split; [exact H3|].
  exact (submit_fresh_pending cfg0 run0 AnswersNone history0 (test_request HIGH) 4
           H1 H2 H3).
Defined.

Lemma legacy_placeholder_witness :
  mgr_get_task_status m1 "task-0" = Return (Some (TaskStatus_value PENDING))
  /\ mgr_get_task_result m1 "task-0" = Return None
  /\ exists r,
       get_task_status_legacy (Some m1) "task-0" =
         Return {| success := true; message := "获取任务状态成功";
                   data := Some (ResultData r) |}
       /\ http_status (respond (get_task_status_legacy (Some m1) "task-0")) = 200%Z
       /\ result_task_id r = "task-0" /\ status r = PENDING
       /\ output r = None /\ error r = None /\ return_code r = None
       /\ execution_time r = None /\ memory_usage r = None
       /\ cpu_usage r = None /\ start_time r = None /\ end_time r = None.
Proof.
  assert (mgr_get_task_status m1 "task-0"
          = Return (Some (TaskStatus_value PENDING))) as H1
    by (vm_compute; reflexivity).
  assert (mgr_get_task_result m1 "task-0" = Return None) as H2
    by (vm_compute; reflexivity).
  split; [exact H1|]. split; [exact H2|].
  exact (proj1 (legacy_placeholder m1 "task-0") PENDING H1 H2).
Defined.

(** After the shutdown of [lifespan], a submission with visible code is
    answered 500 and the detail quotes the life-cycle error. *)
Example submit_after_shutdown :
  match lifespan_shutdown (Some m1) with
  | Some stopped =>
      (submit stopped (test_request LOW) 0).2
        = Raise (PyError LifecycleError "executor manager is not running")
      /\ (serve (Some stopped) (POST_execute (test_request LOW) None)).2
        = {| http_status := 500;
             http_body := JsonDetail
               "提交任务失败: executor manager is not running" |}
  | None => False
  end.
Proof. vm_compute. done. Qed.


End scenario_facts.

(** ** 7.8 Further properties of the handlers *)

Section more_handlers.
Context {M : Type} `{!ExecutorManager M}.

Lemma visible_not_blank (s : pystr) :
  forallb py_isspace s = false -> py_not_str (strip s) = false.
Proof.
  intros H. destruct (py_not_str (strip s)) eqn:E; [|done].
  apply strip_blank in E. congruence.
Qed.

(** X1. The blank-code test of the submit handler is true exactly when
    every character of the code is whitespace for Python (the empty code
    included). *)
Theorem blank_test_exact (s : pystr) :
  py_not_str (strip s) = true <-> forall c, c ∈ s -> py_isspace c = true.
Proof.
  rewrite strip_blank, forallb_forall.
  split; intros H c Hc; apply H; by apply list_elem_of_In.
Qed.

(** X2. Code with a visible character always reaches [submit_task]: the
    manager kept by the service is the one [submit_task] left, and an
    exception raised by [submit_task] is answered by that exception if it
    is an [HTTPException] and by a 500 quoting its text otherwise. *)
Theorem visible_code_reaches_manager (m : M) (rq : CodeExecutionRequest)
    (priority : Z) :
  forallb py_isspace (code rq) = false ->
  (submit_code_execution (Some m) rq priority).1
    = Some (mgr_submit_task m rq priority).1
  /\ forall e, (mgr_submit_task m rq priority).2 = Raise e ->
       (submit_code_execution (Some m) rq priority).2
         = Raise (submit_failure e).
Proof.
  intros H%visible_not_blank. unfold submit_code_execution. rewrite H.
  destruct (mgr_submit_task m rq priority) as [m' o]. simpl.
  split; [done|]. intros e ->. by destruct e.
Qed.

(** X3. When [submit_task] has accepted the task but the queue report
    cannot be used (the call raises, or the dictionary has no ["queues"]
    entry), the client is answered 500 although the manager keeps the
    state in which the task was submitted. *)
Theorem submit_answer_lost (m m' : M) (rq : CodeExecutionRequest)
    (priority : Z) (tid : string) :
  forallb py_isspace (code rq) = false ->
  mgr_submit_task m rq priority = (m', Return tid) ->
  report_unusable (mgr_get_queue_info m') ->
  exists d, submit_code_execution (Some m) rq priority
            = (Some m', Raise (HTTPException 500 d)).
Proof.
  intros H%visible_not_blank Hs Hq. unfold submit_code_execution.
  rewrite H, Hs. simpl.
  destruct (mgr_get_queue_info m') as [info|[c d|cls t]]; simpl in *;
    [|done|eauto].
  unfold py_getitem. rewrite Hq. simpl. eauto.
Qed.

(** X4. When the queue report does not list the tier of the request, or
    lists it without a ["queue_size"], an accepted submission is answered
    with queue position 1 and estimated wait 0. *)
Theorem submit_defaults (m m' : M) (rq : CodeExecutionRequest)
    (priority : Z) (tid : string) (info : queue_info)
    (queues : gmap string tier_info) :
  forallb py_isspace (code rq) = false ->
  mgr_submit_task m rq priority = (m', Return tid) ->
  mgr_get_queue_info m' = Return info ->
  info !! "queues" = Some queues ->
  (queues !! SecurityLevel_value (security_level rq) = None
   \/ exists ti, queues !! SecurityLevel_value (security_level rq) = Some ti
                 /\ ti !! "queue_size" = None) ->
  submit_code_execution (Some m) rq priority =
    (Some m',
     Return {| success := true; message := "任务提交成功";
               data := Some (SubmissionData
                 {| task_id := tid; estimated_wait_time := 0;
                    queue_position := 1 |}) |}).
Proof.
  intros H%visible_not_blank Hs Hq Hi Ht. unfold submit_code_execution.
  rewrite H, Hs. simpl. rewrite Hq. simpl. unfold py_getitem. rewrite Hi.
  simpl. destruct Ht as [->|(ti & -> & Hti)]; simpl.
  - by rewrite lookup_empty.
  - by rewrite Hti.
Qed.

(** X5. The debug route always reaches [submit_task], with its built-in
    request for the chosen tier and priority 1: its code is never taken
    for blank. *)
Theorem debug_task_always_submitted (m : M) (level : SecurityLevel) :
  (submit_test_task (Some m) level).1
    = Some (mgr_submit_task m (test_request level) 1).1
  /\ forall tid, (mgr_submit_task m (test_request level) 1).2 = Return tid ->
       forall resp, (submit_test_task (Some m) level).2 = Return resp ->
         exists r, data resp = Some (SubmissionData r) /\ task_id r = tid.
Proof.
  unfold submit_test_task, submit_code_execution.
  assert (py_not_str (strip (code (test_request level))) = false) as ->
    by (apply visible_not_blank; reflexivity).
  destruct (mgr_submit_task m (test_request level) 1) as [m' o]. simpl.
  split; [done|]. intros tid -> resp H%except_reraise_http_return.
  simpl in H. destruct (mgr_get_queue_info m') as [info|]; [|done].
  simpl in H. unfold py_getitem in H.
  destruct (info !! "queues"); [|done]. simpl in H. injection H as <-.
  simpl. eauto.
Qed.

(** X6. The three monitoring routes answer 200 or 500 and nothing else,
    whatever the manager does (never 503, never the status of an
    [HTTPException] raised by the manager); the answer is a success exactly
    when there is a manager and its method returns. *)
Theorem monitoring_status_codes (executor_manager : option M) (rq : request) :
  guarded_without_reraise rq = true ->
  (serve executor_manager rq).1 = executor_manager
  /\ (http_status (serve executor_manager rq).2 = 200%Z
      \/ http_status (serve executor_manager rq).2 = 500%Z)
  /\ ((exists a, (serve executor_manager rq).2
                 = {| http_status := 200; http_body := JsonApiResponse a |})
      <-> exists m, executor_manager = Some m /\ monitoring_returns m rq).
Proof.
  destruct rq; simpl; try done; intros _; unfold serve; simpl;
    unfold get_queue_info, get_executor_status, get_system_status;
    (split; [done|]);
    destruct executor_manager as [m|]; simpl.
  all: try (split; [by right|]; split; [intros [? [=]]|intros (? & [=] & _)]).
  - destruct (mgr_get_queue_info m) as [info|e] eqn:E; simpl.
    + split; [by left|]. split; eauto.
    + split; [by right|]. split; [intros [? [=]]|].
      intros (? & [= <-] & info & Hi). congruence.
  - destruct (mgr_get_executor_status m) as [r|e] eqn:E; simpl.
    + split; [by left|]. split; eauto.
    + split; [by right|]. split; [intros [? [=]]|].
      intros (? & [= <-] & r & Hi). congruence.
  - destruct (mgr_get_system_status m) as [r|e] eqn:E; simpl.
    + split; [by left|]. split; eauto.
    + split; [by right|]. split; [intros [? [=]]|].
      intros (? & [= <-] & r & Hi). congruence.
Qed.

(** X7. The health check answers with a success exactly when there is a
    manager, it is running and its system report returns; the report is
    passed on unchanged.  Without a manager, or with one that is not
    running, the answer is the 503 "service unavailable". *)
Theorem health_ok_iff (executor_manager : option M) :
  (forall a, (serve executor_manager GET_health).2
             = {| http_status := 200; http_body := JsonApiResponse a |}
     <-> exists m r, executor_manager = Some m
                     /\ mgr_is_running m = true
                     /\ mgr_get_system_status m = Return r
                     /\ a = {| success := true; message := "服务健康";
                               data := Some (ReportData r) |})
  /\ ((executor_manager = None
       \/ exists m, executor_manager = Some m /\ mgr_is_running m = false) ->
      (serve executor_manager GET_health).2
        = {| http_status := 503; http_body := JsonDetail "服务不可用" |}).
Proof.
  unfold serve. simpl. unfold health_check. split.
  - intros a. destruct executor_manager as [m|]; simpl.
    + destruct (mgr_is_running m) eqn:Hr; simpl.
      * destruct (mgr_get_system_status m) as [r|[c d|cls t]] eqn:Hs; simpl.
        -- split.
           ++ intros [= <-]. eauto 10.
           ++ intros (? & ? & [= <-] & _ & Hs' & ->). congruence.
        -- split; [intros [=]|]. intros (? & ? & [= <-] & _ & Hs' & _).
           congruence.
        -- split; [intros [=]|]. intros (? & ? & [= <-] & _ & Hs' & _).
           congruence.
      * split; [intros [=]|]. intros (? & ? & [= <-] & ? & _). congruence.
    + split; [intros [=]|]. intros (? & ? & [=] & _).
  - intros [->|(m & -> & Hr)]; simpl; [done|]. by rewrite Hr.
Qed.

(** X8. The result query passes the manager's result on unchanged; when
    the manager answers the call, the query is a success exactly when the
    manager holds a result, and a 404 exactly when it holds none. *)
Theorem result_endpoint_relay (m : M) (tid : string)
    (stored : option ExecutionResult) :
  mgr_get_task_result m tid = Return stored ->
  get_task_result (Some m) tid =
    match stored with
    | Some r => Return (result_response r)
    | None => result_not_found
    end
  /\ ((exists a, get_task_result (Some m) tid = Return a) <-> is_Some stored)
  /\ (http_status (respond (get_task_result (Some m) tid)) = 404%Z
      <-> stored = None).
Proof.
  intros H. unfold get_task_result. rewrite H. simpl.
  destruct stored as [r|]; simpl.
  - split; [done|]. split; [split; eauto|]. split; done.
  - split; [done|]. split; [|done]. split; [intros [? [=]]|intros [? [=]]].
Qed.

(** X9. The cancel route keeps the manager that [cancel_task] left, also
    when it fails; when [cancel_task] returns, the answer is the success
    payload for [True] and the 400 for [False], so an unknown task and a
    task that can no longer be cancelled get the same answer. *)
Theorem cancel_endpoint_relay (m : M) (tid : string) :
  (cancel_task (Some m) tid).1 = Some (mgr_cancel_task m tid).1
  /\ (forall ok, (mgr_cancel_task m tid).2 = Return ok ->
        (cancel_task (Some m) tid).2 = cancel_response tid ok)
  /\ (forall e, (mgr_cancel_task m tid).2 = Raise e -> not_http (Raise (A:=bool) e) ->
        (cancel_task (Some m) tid).2
          = Raise (HTTPException 500 ("取消任务失败: " +:+ py_str e))).
Proof.
  unfold cancel_task. destruct (mgr_cancel_task m tid) as [m' o]. simpl.
  split; [done|]. split.
  - intros ok ->. by destruct ok.
  - intros e -> He. by destruct e.
Qed.

(** X10. For a task the manager knows and holds a result of, the legacy
    route and the result route return the same result, and the legacy
    route does not convert the status string (an unknown status value does
    no harm).  For a task the manager reports no status of, the legacy
    route answers 404 even if a result is stored, where the result route
    returns it. *)
Theorem legacy_agrees_with_result (m : M) (tid : string) (r : ExecutionResult) :
  mgr_get_task_result m tid = Return (Some r) ->
  (forall st, mgr_get_task_status m tid = Return (Some st) ->
     get_task_status_legacy (Some m) tid =
       Return {| success := true; message := "获取任务状态成功";
                 data := Some (ResultData r) |}
     /\ get_task_result (Some m) tid = Return (result_response r))
  /\ (mgr_get_task_status m tid = Return None ->
     get_task_status_legacy (Some m) tid = Raise (HTTPException 404 "任务不存在")
     /\ get_task_result (Some m) tid = Return (result_response r)).
Proof.
  intros Hr. unfold get_task_status_legacy, get_task_result. rewrite Hr.
  split.
  - by intros st ->.
  - by intros ->.
Qed.

(** X11. For a known task without a stored result whose status string is
    not the value of any [TaskStatus] member, the legacy route answers 500
    (the [ValueError] of the conversion is caught), while the status route
    returns that string. *)
Theorem legacy_invalid_status (m : M) (tid st : string) :
  mgr_get_task_status m tid = Return (Some st) ->
  mgr_get_task_result m tid = Return None ->
  TaskStatus_of_value st = None ->
  (exists d, get_task_status_legacy (Some m) tid = Raise (HTTPException 500 d))
  /\ get_task_status (Some m) tid = Return (status_response tid st).
Proof.
  intros Hs Hr Hv. unfold get_task_status_legacy, get_task_status.
  rewrite Hs. simpl. rewrite Hr. simpl. unfold TaskStatus_call. rewrite Hv.
  simpl. eauto.
Qed.





End more_handlers.

(** ** 7.9 Logging set-up *)

Section logging_facts.
Import Logging.

Ltac same_levels :=
  simpl; apply map_eq; intros ?; rewrite !lookup_insert;
  repeat case_decide; by simplify_eq.

Ltac listed_logger H :=
  repeat (apply elem_of_cons in H as [->|H]);
  [..|by apply elem_of_nil in H];
  rewrite !lookup_insert; repeat case_decide; done.

Ltac other_logger H :=
  repeat (apply not_elem_of_cons in H as [? H]);
  by rewrite !lookup_insert_ne by done.

Lemma setup_logging_handlers (c : level_choice) (q : bool) (st : logging_state) :
  root_handlers (setup_logging c q st)
  = match root_handlers st with [] => [log_format] | hs => hs end.
Proof.
  unfold setup_logging, basicConfig.
  destruct q, (root_handlers st) eqn:E; simpl; by rewrite ?E.
Qed.

Lemma quiet_levels_root (c : level_choice) (st : logging_state) :
  root_level (setup_logging c true st) = logging_ERROR.
Proof. unfold setup_logging, basicConfig. by destruct (root_handlers st). Qed.

(** X13. In quiet mode the chosen [--log-level] has no effect on the
    logging state: whatever it is, the root logger and the loggers
    [uvicorn], [uvicorn.access] and [apscheduler] end at ERROR, and no other
    logger is touched. *)
Theorem quiet_overrides_level (c c' : level_choice) (st : logging_state) :
  setup_logging c true st = setup_logging c' true st
  /\ root_level (setup_logging c true st) = logging_ERROR
  /\ (forall name, name ∈ ["uvicorn"; "uvicorn.access"; "apscheduler"] ->
        logger_levels (setup_logging c true st) !! name = Some logging_ERROR)
  /\ (forall name, name ∉ ["uvicorn"; "uvicorn.access"; "apscheduler"] ->
        logger_levels (setup_logging c true st) !! name
        = logger_levels st !! name).
Proof.
  unfold setup_logging, basicConfig, setLevel, root_setLevel.
  destruct (root_handlers st) eqn:E; simpl; rewrite ?E;
    (split; [done|]); (split; [done|]); split; intros name Hn.
  all: first [listed_logger Hn | other_logger Hn].
Qed.

(** X14. In normal mode, [uvicorn.access] and [apscheduler] end at
    WARNING and no other named logger is touched; the chosen level reaches
    the root logger only when the root logger had no handler yet, otherwise
    the root level stays what it was. *)
Theorem normal_mode_levels (c : level_choice) (st : logging_state) :
  root_level (setup_logging c false st)
    = match root_handlers st with
      | [] => level_of_choice c
      | _ :: _ => root_level st
      end
  /\ (forall name, name ∈ ["uvicorn.access"; "apscheduler"] ->
        logger_levels (setup_logging c false st) !! name = Some logging_WARNING)
  /\ (forall name, name ∉ ["uvicorn.access"; "apscheduler"] ->
        logger_levels (setup_logging c false st) !! name
        = logger_levels st !! name).
Proof.
  unfold setup_logging, basicConfig, setLevel.
  destruct (root_handlers st) eqn:E; simpl; (split; [done|]); split;
    intros name Hn.
  all: first [listed_logger Hn | other_logger Hn].
Qed.

(** X15. Calling [setup_logging] again never adds a second handler.  A
    second call in normal mode changes nothing, whatever level it asks
    for; a call in quiet mode after any earlier call leaves the state that
    a single quiet call would have left. *)
Theorem setup_logging_again (c1 c2 : level_choice) (q : bool)
    (st : logging_state) :
  length (root_handlers (setup_logging c2 q (setup_logging c1 q st)))
    = max 1 (length (root_handlers st))
  /\ setup_logging c2 false (setup_logging c1 false st)
     = setup_logging c1 false st
  /\ setup_logging c2 true (setup_logging c1 q st) = setup_logging c1 true st.
Proof.
  split; [|split].
  - rewrite !setup_logging_handlers. destruct (root_handlers st); simpl; lia.
  - unfold setup_logging, basicConfig, setLevel.
    destruct (root_handlers st) eqn:E; simpl; rewrite ?E; f_equal;
      try done; same_levels.
  - unfold setup_logging, basicConfig, setLevel, root_setLevel.
    destruct q, (root_handlers st) eqn:E; simpl; rewrite ?E; f_equal;
      try done; same_levels.
Qed.

(** X16. Importing [service.py] after [setup_logging] leaves the root
    logger as it is (its own [basicConfig] finds a handler) but puts
    [uvicorn.access] and [apscheduler] at WARNING: after a quiet set-up
    these two loggers are no longer at ERROR, while the root logger and
    [uvicorn] are. *)
Theorem service_import_after_setup (c : level_choice) (q : bool)
    (st : logging_state) :
  root_handlers (service_import (setup_logging c q st))
    = root_handlers (setup_logging c q st)
  /\ root_level (service_import (setup_logging c q st))
     = root_level (setup_logging c q st)
  /\ (forall name, name ∈ ["uvicorn.access"; "apscheduler"] ->
        logger_levels (service_import (setup_logging c q st)) !! name
        = Some logging_WARNING)
  /\ (q = true ->
      root_level (service_import (setup_logging c q st)) = logging_ERROR
      /\ logger_levels (service_import (setup_logging c q st)) !! "uvicorn"
         = Some logging_ERROR).
Proof.
  assert (exists h hs, root_handlers (setup_logging c q st) = h :: hs)
    as (h & hs & Hh).
  { rewrite setup_logging_handlers. destruct (root_handlers st); eauto. }
  unfold service_import, basicConfig. rewrite Hh. simpl.
  split; [done|]. split; [done|]. split.
  - intros name Hn. listed_logger Hn.
  - intros ->. split.
    + apply (quiet_levels_root c st).
    + rewrite !lookup_insert_ne by done.
      unfold setup_logging, setLevel. simpl.
      rewrite !lookup_insert_ne by done. by rewrite lookup_insert_eq.
Qed.

(** X17. [main] asks uvicorn for the level it has just configured: in a
    new interpreter, for every command line, the name passed to
    [uvicorn.run] stands for the level the root logger has after
    [setup_logging], and the access log is on exactly when [--quiet] is off.
    In quiet mode every line [main] writes is printed; in normal mode none
    is printed, all go through the logger.  [main] writes its failure line
    and exits with status 1 when [uvicorn.run] raises an [Exception]; a
    [SystemExit] or another [BaseException] raised by [uvicorn.run] leaves
    [main] as it came, with no line after the banner. *)
Theorem main_levels_agree (args : Args) (server : uvicorn_call -> run_outcome) :
  let r := main args fresh server in
  uvicorn_LOG_LEVELS !! run_log_level (call r)
    = Some (root_level (logging_before_run r))
  /\ access_log (call r) = negb (quiet args)
  /\ (quiet args = true -> Forall (fun a => is_print a = true) (actions r))
  /\ (quiet args = false -> Forall (fun a => is_print a = false) (actions r))
  /\ match server (call r) with
     | Returned => ended r = Returns /\ actions r = banner args
     | KeyboardInterrupt =>
         ended r = Returns /\ actions r = banner args ++ [stopped_line args]
     | Raised text =>
         ended r = Exits 1
         /\ actions r = banner args ++ [failure_line args text]
     | SystemExit code => ended r = Exits code /\ actions r = banner args
     | OtherBaseException name =>
         ended r = Uncaught name /\ actions r = banner args
     end.
Proof.
  destruct args as [h p c q rl]. unfold main. simpl.
  set (uc := {| app := "service:app"; run_host := h; run_port := p;
                run_reload := rl;
                run_log_level := if negb q then lower_name c else "error";
                access_log := negb q |}).
  assert (uvicorn_LOG_LEVELS !! (if negb q then lower_name c else "error")
          = Some (root_level (setup_logging c q fresh))) as Hl
    by (destruct q, c; reflexivity).
  destruct (server uc) eqn:Hs; simpl; rewrite ?Hs.
  all: split; [exact Hl|]; split; [done|].
  all: split; [intros ->; unfold banner, stopped_line, failure_line; simpl;
               repeat constructor|].
  all: split; [intros ->; unfold banner, stopped_line, failure_line; simpl;
               repeat constructor|].
  all: done.
Qed.

Example quiet_then_import :
  root_level (service_import (setup_logging DEBUG true fresh)) = 40%Z
  /\ logger_levels (service_import (setup_logging DEBUG true fresh))
       !! "apscheduler" = Some 30%Z
  /\ logger_levels (setup_logging DEBUG true fresh) !! "apscheduler"
     = Some 40%Z
  /\ root_level (service_import fresh) = 20%Z.
Proof. vm_compute. done. Qed.

Example main_default_run :
  call (main default_args fresh (fun _ => Raised "address in use"))
    = {| app := "service:app"; run_host := "0.0.0.0"; run_port := 8000;
         run_reload := false; run_log_level := "info"; access_log := true |}
  /\ ended (main default_args fresh (fun _ => Raised "address in use"))
     = Exits 1
  /\ last (actions (main default_args fresh (fun _ => Raised "address in use")))
     = Some (LoggerError "❌ 服务启动失败: address in use")
  /\ ended (main default_args fresh (fun _ => SystemExit 3)) = Exits 3
  /\ length (actions (main default_args fresh (fun _ => SystemExit 3))) = 3.
Proof. vm_compute. done. Qed.

End logging_facts.

(** ** 7.10 The further properties on concrete managers *)

Section stub_runs.
Import Stub.
#[local] Existing Instance Stub.ops.

(** A zero-width space is no whitespace for Python: code made of it is
    not blank; a no-break space and an ideographic space are. *)
Example zero_width_space_is_visible :
  py_not_str (strip [8203]%N) = false /\ py_not_str (strip [160; 12288]%N) = true.
Proof. split; reflexivity. Qed.

Lemma visible_code_reaches_manager_witness :
  forallb py_isspace (code (test_request LOW)) = false
  /\ (submit_code_execution (Some failing) (test_request LOW) 0).1
     = Some (mgr_submit_task failing (test_request LOW) 0).1
  /\ (submit_code_execution (Some failing) (test_request LOW) 0).2
     = Raise (HTTPException 500 "提交任务失败: boom").
Proof.
  assert (forallb py_isspace (code (test_request LOW)) = false) as H
    by reflexivity.
  split; [exact H|].
  destruct (visible_code_reaches_manager failing (test_request LOW) 0 H)
    as [H1 H2].
  split; [exact H1|]. exact (H2 _ eq_refl).
Defined.

Lemma submit_answer_lost_witness :
  forallb py_isspace (code (test_request LOW)) = false
  /\ mgr_submit_task no_queues (test_request LOW) 0 = (no_queues, Return "t1")
  /\ report_unusable (mgr_get_queue_info no_queues)
  /\ exists d, submit_code_execution (Some no_queues) (test_request LOW) 0
               = (Some no_queues, Raise (HTTPException 500 d)).
Proof.
  assert (forallb py_isspace (code (test_request LOW)) = false) as H1
    by reflexivity.
  assert (mgr_submit_task no_queues (test_request LOW) 0
          = (no_queues, Return "t1")) as H2 by reflexivity.
  assert (report_unusable (mgr_get_queue_info no_queues)) as H3
    by reflexivity.
  split; [exact H1|]. split; [exact H2|]. split; [exact H3|].
  exact (submit_answer_lost no_queues no_queues (test_request LOW) 0 "t1"
           H1 H2 H3).
Defined.

Lemma submit_defaults_witness :
  forallb py_isspace (code (test_request HIGH)) = false
  /\ submit_code_execution (Some no_tier) (test_request HIGH) 0 =
       (Some no_tier,
        Return {| success := true; message := "任务提交成功";
                  data := Some (SubmissionData
                    {| task_id := "t1"; estimated_wait_time := 0;
                       queue_position := 1 |}) |}).
Proof.
  assert (forallb py_isspace (code (test_request HIGH)) = false) as H1
    by reflexivity.
  split; [exact H1|].
  apply (submit_defaults no_tier no_tier (test_request HIGH) 0 "t1"
           {[ "queues" := ∅ ]} ∅ H1); [reflexivity..|].
  left. reflexivity.
Defined.

Lemma result_endpoint_relay_witness :
  mgr_get_task_result no_queues "t1" = Return (Some a_result)
  /\ get_task_result (Some no_queues) "t1" = Return (result_response a_result).
Proof.
  assert (mgr_get_task_result no_queues "t1" = Return (Some a_result)) as H
    by reflexivity.
  split; [exact H|].
  exact (proj1 (result_endpoint_relay no_queues "t1" (Some a_result) H)).
Defined.

Lemma legacy_agrees_with_result_witness :
  mgr_get_task_result no_queues "t1" = Return (Some a_result)
  /\ mgr_get_task_status no_queues "t1" = Return (Some "no such state")
  /\ get_task_status_legacy (Some no_queues) "t1" =
       Return {| success := true; message := "获取任务状态成功";
                 data := Some (ResultData a_result) |}
  /\ get_task_result (Some no_queues) "t1" = Return (result_response a_result).
Proof.
  assert (mgr_get_task_result no_queues "t1" = Return (Some a_result)) as H1
    by reflexivity.
  assert (mgr_get_task_status no_queues "t1" = Return (Some "no such state"))
    as H2 by reflexivity.
  split; [exact H1|]. split; [exact H2|].
  exact (proj1 (legacy_agrees_with_result no_queues "t1" a_result H1)
           "no such state" H2).
Defined.

Lemma legacy_invalid_status_witness :
  mgr_get_task_status no_tier "t1" = Return (Some "no such state")
  /\ mgr_get_task_result no_tier "t1" = Return None
  /\ TaskStatus_of_value "no such state" = None
  /\ (exists d, get_task_status_legacy (Some no_tier) "t1"
                = Raise (HTTPException 500 d))
  /\ get_task_status (Some no_tier) "t1"
     = Return (status_response "t1" "no such state").
Proof.
  assert (mgr_get_task_status no_tier "t1" = Return (Some "no such state"))
    as H1 by reflexivity.
  assert (mgr_get_task_result no_tier "t1" = Return None) as H2
    by reflexivity.
  assert (TaskStatus_of_value "no such state" = None) as H3 by reflexivity.
  split; [exact H1|]. split; [exact H2|]. split; [exact H3|].
  exact (legacy_invalid_status no_tier "t1" "no such state" H1 H2 H3).
Defined.

Lemma cancel_endpoint_relay_witness :
  (mgr_cancel_task failing "t1").2
    = Raise (PyError (OtherError "RuntimeError") "boom")
  /\ (cancel_task (Some failing) "t1").2
     = Raise (HTTPException 500 "取消任务失败: boom")
  /\ (mgr_cancel_task no_tier "t1").2 = Return true
  /\ (cancel_task (Some no_tier) "t1").2 = cancel_response "t1" true.
Proof.
  split; [reflexivity|].
  split; [exact (proj2 (proj2 (cancel_endpoint_relay failing "t1")) _ eq_refl I)|].
  split; [reflexivity|].
  exact (proj1 (proj2 (cancel_endpoint_relay no_tier "t1")) true eq_refl).
Defined.

Lemma monitoring_status_codes_witness :
  guarded_without_reraise GET_executors_status = true
  /\ (http_status (serve (Some failing) GET_executors_status).2 = 200%Z
      \/ http_status (serve (Some failing) GET_executors_status).2 = 500%Z).
Proof.
  split; [reflexivity|].
  exact (proj1 (proj2 (monitoring_status_codes (Some failing)
                         GET_executors_status eq_refl))).
Defined.

End stub_runs.

Section model_runs.
Import SpecManager Scenario.
#[local] Existing Instance ops0.



End model_runs.
